(** * ODCS contract skill: the scaffold generator and the contract validator

    A shallow embedding of the two scripts of [skills/odcs-contract/scripts]:

    - [new_contract.py]      as module [NewContract];
    - [validate_contract.py] as module [ValidateContract].

    Python text is a [string] of bytes (UTF-8), [None] is [option]'s [None],
    and every function that prints, touches the file system or the network,
    returns early or raises is written in the monad [M] of module [Py]: a
    state monad whose results distinguish falling through a statement, a
    [return] and a raised exception. *)

From Stdlib Require Import ZArith Ascii String List Lia.
From stdpp Require Import base option list strings gmap pretty.

Set Default Proof Using "Type".
Set Warnings "-register-all".

(** ** Python: strings, exceptions and the control monad *)
Module Py.

(** *** Characters that a Rocq literal cannot hold directly *)
Definition nl : string := String "010"%char "".
Definition dq : string := String "034"%char "".

(** [unlines] builds a triple-quoted literal from its lines: every line,
    the last included, ends in a newline. *)
Definition unlines (ls : list string) : string :=
  String.concat "" (map (fun l => l +:+ nl) ls).

(** *** [str] methods *)

(** [s.startswith(p)] *)
Definition startswith (p s : string) : bool := String.prefix p s.

(** [s.startswith((p1, p2, ...))] *)
Definition startswith_any (ps : list string) (s : string) : bool :=
  existsb (fun p => startswith p s) ps.

(** [sep.join(l)] *)
Definition join (sep : string) (l : list string) : string :=
  String.concat sep l.

(** [s.replace(old, new)] for a non-empty [old]: the occurrences of [old]
    are replaced from left to right without overlap.  [skip] counts the
    characters of an occurrence that is being stepped over. *)
Fixpoint replace_go (old new : string) (skip : nat) (s : string) : string :=
  match s with
  | "" => ""
  | String c s' =>
      match skip with
      | S k => replace_go old new k s'
      | O =>
          if String.prefix old s
          then new +:+ replace_go old new (String.length old - 1) s'
          else String c (replace_go old new 0 s')
      end
  end.

Definition replace (old new s : string) : string := replace_go old new 0 s.

Definition is_upper (c : ascii) : bool :=
  (65 <=? nat_of_ascii c) && (nat_of_ascii c <=? 90).
Definition is_lower (c : ascii) : bool :=
  (97 <=? nat_of_ascii c) && (nat_of_ascii c <=? 122).
Definition is_cased (c : ascii) : bool := is_upper c || is_lower c.
Definition upper (c : ascii) : ascii :=
  if is_lower c then ascii_of_nat (nat_of_ascii c - 32) else c.
Definition lower (c : ascii) : ascii :=
  if is_upper c then ascii_of_nat (nat_of_ascii c + 32) else c.

(** [s.title()]: a cased character is upper-cased when the character
    before it is not cased, and lower-cased otherwise.  Casing is that of
    the ASCII letters; other bytes are uncased and left as they are. *)
Fixpoint title_go (prev_cased : bool) (s : string) : string :=
  match s with
  | "" => ""
  | String c s' =>
      String (if prev_cased then lower c else upper c)
             (title_go (is_cased c) s')
  end.

Definition title (s : string) : string := title_go false s.

(** [template.format(k1=v1, ...)] for templates whose replacement fields are
    plain names, [{name}]: no doubled braces, conversions or format
    specifications (the two templates of [new_contract.py] have none).
    [field] is the name being read after an opening brace.  [None] stands
    for the [KeyError] or [ValueError] that [str.format] raises. *)
Fixpoint format_go (kw : list (string * string)) (field : option string)
         (s : string) : option string :=
  match s with
  | "" => match field with None => Some "" | Some _ => None end
  | String c s' =>
      match field with
      | Some f =>
          if Ascii.eqb c "}"
          then v ← (snd <$> List.find (fun kv => String.eqb (fst kv) f) kw);
               r ← format_go kw None s';
               Some (v +:+ r)
          else format_go kw (Some (f +:+ String c "")) s'
      | None =>
          if Ascii.eqb c "{" then format_go kw (Some "") s'
          else if Ascii.eqb c "}" then None
          else String c <$> format_go kw None s'
      end
  end.

Definition format (template : string) (kw : list (string * string))
  : option string := format_go kw None template.

(** *** Exceptions *)
Inductive os_class : Type :=
| FileNotFoundError
| FileExistsError
| NotADirectoryError
| IsADirectoryError
| PermissionError.

Inductive exn : Type :=
| YAMLError (msg : string)        (* yaml.YAMLError *)
| JSONDecodeError (msg : string)  (* json.JSONDecodeError *)
| URLError (msg : string)         (* urllib.error.URLError and HTTPError *)
| OSError (cls : os_class) (msg : string)
| OtherError (msg : string)       (* any other subclass of Exception *)
| SystemExit (code : Z).          (* raised by sys.exit *)

(** [str(e)] *)
Definition exn_str (e : exn) : string :=
  match e with
  | YAMLError m | JSONDecodeError m | URLError m | OSError _ m
  | OtherError m => m
  | SystemExit c => pretty c
  end.

(** [isinstance(e, Exception)]: [SystemExit] derives from [BaseException]
    only. *)
Definition is_Exception (e : exn) : bool :=
  match e with SystemExit _ => false | _ => true end.

(** What a call into a library or the operating system gives back. *)
Inductive result (A : Type) : Type :=
| Ok (a : A)
| Err (e : exn).
Arguments Ok {A} a.
Arguments Err {A} e.

(** *** The control monad

    A statement run in state [S] inside a function returning [R] either
    falls through with a value ([Normal]), executes [return r]
    ([Return]) or raises ([Raise]); the state it leaves behind is kept in
    all three cases. *)
Inductive res (R A : Type) : Type :=
| Normal (a : A)
| Return (r : R)
| Raise (e : exn).
Arguments Normal {R A} a.
Arguments Return {R A} r.
Arguments Raise {R A} e.

Definition M (S R A : Type) : Type := S -> res R A * S.

Section Monad.
Context {S R : Type}.

Definition pure {A} (a : A) : M S R A := fun s => (Normal a, s).
Definition return_ {A} (r : R) : M S R A := fun s => (Return r, s).
Definition raise {A} (e : exn) : M S R A := fun s => (Raise e, s).

Definition bind {A B} (m : M S R A) (k : A -> M S R B) : M S R B :=
  fun s =>
    match m s with
    | (Normal a, s') => k a s'
    | (Return r, s') => (Return r, s')
    | (Raise e, s') => (Raise e, s')
    end.

Definition get : M S R S := fun s => (Normal s, s).
Definition modify (f : S -> S) : M S R unit := fun s => (Normal tt, f s).

(** A library call: its exception, if any, is raised here. *)
Definition lift {A} (r : result A) : M S R A :=
  match r with Ok a => pure a | Err e => raise e end.

(** [try: body  except <class> as e: handler e]: [handler] says, by
    returning [Some], which exceptions the clauses catch. *)
Definition try_except {A} (body : M S R A)
           (handler : exn -> option (M S R A)) : M S R A :=
  fun s =>
    match body s with
    | (Raise e, s') =>
        match handler e with
        | Some h => h s'
        | None => (Raise e, s')
        end
    | other => other
    end.
End Monad.

(** Running a function whose body is [body] from state [s]: the value it
    returns (by [return] or by reaching its end) or the exception that
    leaves it, and the state it leaves behind. *)
Definition run {S A} (body : M S A A) (s : S) : result A * S :=
  match body s with
  | (Normal r, s') | (Return r, s') => (Ok r, s')
  | (Raise e, s') => (Err e, s')
  end.

(** The call of such a function inside another one. *)
Definition call {S R A} (body : M S A A) : M S R A :=
  fun s =>
    match run body s with
    | (Ok r, s') => (Normal r, s')
    | (Err e, s') => (Raise e, s')
    end.

(** [for x in l: body x] *)
Fixpoint for_ {S R A} (l : list A) (body : A -> M S R unit) : M S R unit :=
  match l with
  | [] => pure tt
  | x :: l' => bind (body x) (fun _ => for_ l' body)
  end.

(** The exit code of the process whose main program ended as [r]: that of
    [sys.exit], 1 after an uncaught exception, 0 otherwise. *)
Definition exit_code {A} (r : result A) : Z :=
  match r with
  | Err (SystemExit c) => c
  | Err _ => 1
  | Ok _ => 0
  end.

Declare Scope py_scope.
Delimit Scope py_scope with py.
Notation "x <- m ;; k" := (bind m (fun x => k))
  (at level 20, m at level 99, k at level 200, only parsing) : py_scope.
Notation "' pat <- m ;; k" := (bind m (fun x => match x with pat => k end))
  (at level 20, pat pattern, m at level 99, k at level 200, only parsing)
  : py_scope.
Notation "m ;; k" := (bind m (fun _ => k))
  (at level 100, k at level 200, only parsing, right associativity)
  : py_scope.

End Py.


(** ** pathlib: pure paths *)
Module Pathlib.
Import Py.

(** A [PurePosixPath]: its root ([""] for a relative path, ["/"] or ["//"])
    and its components. *)
Record path : Type := MkPath { root : string; parts : list string }.

(** [s.split(sep)] for a one-character separator; [cur] holds the
    component being read, reversed. *)
Fixpoint split_go (sep : ascii) (cur : string) (s : string) : list string :=
  match s with
  | "" => [String.rev cur]
  | String c s' =>
      if Ascii.eqb c sep then String.rev cur :: split_go sep "" s'
      else split_go sep (String c cur) s'
  end.

Definition split (sep : ascii) (s : string) : list string := split_go sep "" s.

(** The root of a path string: exactly two leading slashes are kept, any
    other number of them is one slash. *)
Definition parse_root (s : string) : string :=
  match s with
  | String "/" (String "/" (String "/" _)) => "/"
  | String "/" (String "/" _) => "//"
  | String "/" _ => "/"
  | _ => ""
  end.

(** [Path(s)]: empty components and ["."] components are dropped. *)
Definition Path (s : string) : path :=
  MkPath (parse_root s)
         (List.filter (fun c => negb (String.eqb c "" || String.eqb c "."))
                      (split "/" s)).

(** [str(p)] *)
Definition str (p : path) : string :=
  match root p, parts p with
  | "", [] => "."
  | r, ps => r +:+ join "/" ps
  end.

(** [p.parent] *)
Definition parent (p : path) : path :=
  match parts p with
  | [] => p
  | _ => MkPath (root p) (removelast (parts p))
  end.

(** [p.name] *)
Definition name (p : path) : string := List.last (parts p) "".

(** [s.rfind(c)] as an index from the left, if [c] occurs. *)
Fixpoint rfind_go (c : ascii) (i : nat) (s : string) : option nat :=
  match s with
  | "" => None
  | String d s' =>
      match rfind_go c (S i) s' with
      | Some j => Some j
      | None => if Ascii.eqb c d then Some i else None
      end
  end.

Definition rfind (c : ascii) (s : string) : option nat := rfind_go c 0 s.

(** [p.stem]: the name without its last suffix; a leading or a trailing dot
    starts no suffix. *)
Definition stem (p : path) : string :=
  let n := name p in
  match rfind "." n with
  | Some i =>
      if (0 <? i) && (i <? String.length n - 1) then String.substring 0 i n
      else n
  | None => n
  end.

(** The paths of the directories above [p], outermost first; the first one
    is the root or the current directory. *)
Fixpoint proper_prefixes {A} (l : list A) : list (list A) :=
  match l with
  | [] => []
  | x :: l' => [] :: map (cons x) (proper_prefixes l')
  end.

Definition ancestors (p : path) : list path :=
  map (MkPath (root p)) (proper_prefixes (parts p)).

End Pathlib.

(** ** new_contract.py *)
Module NewContract.
Import Py Pathlib.
Local Open Scope py_scope.

(** *** The file system and the console

    A file system maps the string of a path to what is stored there.  The
    root and the current directory (the paths without components) are
    always directories.  Symbolic links and permissions are not part of
    the model, and two writings of one file, such as [a/../b] and [b] or a
    relative and an absolute path, are two keys: the map is the picture of
    a working directory on the paths of [plain_path] below. *)
Inductive node : Type :=
| File (content : string)
| Dir.

Record State : Type := MkState {
  fs : gmap string node;     (* the file system *)
  stdout : list string       (* the lines printed so far, oldest first *)
}.

(** What the run draws from its environment: [uuid.uuid4()] as text and the
    two readings of the clock, already formatted. *)
Record Env : Type := MkEnv {
  uuid4 : string;            (* str(uuid.uuid4()) *)
  now_isoformat : string;    (* datetime.now(timezone.utc).isoformat() *)
  now_date : string          (* datetime.now(timezone.utc).strftime("%Y-%m-%d") *)
}.

Definition lookup_path (m : gmap string node) (p : path) : option node :=
  match parts p with
  | [] => Some Dir
  | _ => m !! str p
  end.

(** Walking down to the directory that holds [p]: the first ancestor that
    is missing or is a file makes the system call fail. *)
Fixpoint walk (m : gmap string node) (ancs : list path) : option os_class :=
  match ancs with
  | [] => None
  | a :: rest =>
      match lookup_path m a with
      | None => Some FileNotFoundError
      | Some (File _) => Some NotADirectoryError
      | Some Dir => walk m rest
      end
  end.

Definition os_error (cls : os_class) (p : path) : exn :=
  let text :=
    match cls with
    | FileNotFoundError => "[Errno 2] No such file or directory: '"
    | FileExistsError => "[Errno 17] File exists: '"
    | NotADirectoryError => "[Errno 20] Not a directory: '"
    | IsADirectoryError => "[Errno 21] Is a directory: '"
    | PermissionError => "[Errno 13] Permission denied: '"
    end in
  OSError cls (text +:+ str p +:+ "'").

(** [p.exists()]: [False] also when the walk to [p] fails. *)
Definition path_exists (m : gmap string node) (p : path) : bool :=
  match walk m (ancestors p) with
  | Some _ => false
  | None => bool_decide (is_Some (lookup_path m p))
  end.

(** [p.is_dir()] *)
Definition is_dir (m : gmap string node) (p : path) : bool :=
  match walk m (ancestors p), lookup_path m p with
  | None, Some Dir => true
  | _, _ => false
  end.

(** [os.mkdir(p)] *)
Definition os_mkdir (m : gmap string node) (p : path)
  : result (gmap string node) :=
  match walk m (ancestors p) with
  | Some cls => Err (os_error cls p)
  | None =>
      match lookup_path m p with
      | Some _ => Err (os_error FileExistsError p)
      | None => Ok (<[str p := Dir]> m)
      end
  end.

(** [p.mkdir(parents=False, exist_ok=True)] *)
Definition mkdir_exist_ok (m : gmap string node) (p : path)
  : result (gmap string node) :=
  match os_mkdir m p with
  | Ok m' => Ok m'
  | Err (OSError FileNotFoundError msg) => Err (OSError FileNotFoundError msg)
  | Err e => if is_dir m p then Ok m else Err e
  end.

(** [p.mkdir(parents=True, exist_ok=True)]: pathlib creates the missing
    parent first when [os.mkdir] reports [FileNotFoundError], then tries
    again.  [depth] is the number of components of [p], so that [O] is the
    case [p.parent == p] of the library. *)
Fixpoint mkdir_parents_go (depth : nat) (m : gmap string node) (p : path)
  : result (gmap string node) :=
  match os_mkdir m p with
  | Ok m' => Ok m'
  | Err (OSError FileNotFoundError msg) =>
      match depth with
      | O => Err (OSError FileNotFoundError msg)
      | S d =>
          match mkdir_parents_go d m (parent p) with
          | Ok m1 => mkdir_exist_ok m1 p
          | Err e => Err e
          end
      end
  | Err e => if is_dir m p then Ok m else Err e
  end.

Definition mkdir_parents (m : gmap string node) (p : path)
  : result (gmap string node) :=
  mkdir_parents_go (List.length (parts p)) m p.

(** [open(p, 'w')], write, close *)
Definition os_write_text (m : gmap string node) (p : path) (content : string)
  : result (gmap string node) :=
  match walk m (ancestors p) with
  | Some cls => Err (os_error cls p)
  | None =>
      match lookup_path m p with
      | Some Dir => Err (os_error IsADirectoryError p)
      | _ => Ok (<[str p := File content]> m)
      end
  end.

(** The same operations as statements. *)
Definition print {R} (line : string) : M State R unit :=
  modify (fun st => MkState (fs st) (stdout st ++ [line])).

Definition exists_ {R} (p : path) : M State R bool :=
  st <- get ;; pure (path_exists (fs st) p).

Definition update_fs {R} (op : gmap string node -> result (gmap string node))
  : M State R unit :=
  st <- get ;;
  m' <- lift (op (fs st)) ;;
  modify (fun st => MkState m' (stdout st)).

Definition mkdir {R} (p : path) : M State R unit :=
  update_fs (fun m => mkdir_parents m p).

Definition write_text {R} (p : path) (content : string) : M State R unit :=
  update_fs (fun m => os_write_text m p content).

(** [sys.exit(code)] *)
Definition sys_exit {R A} (code : Z) : M State R A := raise (SystemExit code).

(** *** The templates *)
Definition MINIMAL_TEMPLATE : string :=
  unlines
    [ "apiVersion: v3.1.0";
      "kind: DataContract";
      "id: {id}";
      "version: 1.0.0";
      "status: draft";
      "schema:";
      "  - name: {table_name}";
      "    logicalType: object";
      "    description: TODO - Add table description";
      "    properties:";
      "      - name: id";
      "        logicalType: integer";
      "        primaryKey: true";
      "        required: true";
      "        description: Primary key" ].

Definition FULL_TEMPLATE : string :=
  unlines
    [ "# ODCS v3.1.0 Data Contract";
      "# Generated: {timestamp}";
      "";
      "apiVersion: v3.1.0";
      "kind: DataContract";
      "id: {id}";
      "version: 1.0.0";
      "status: draft";
      "";
      "# Metadata";
      "name: {name}";
      "domain: {domain}";
      "dataProduct: {data_product}";
      "tenant: {tenant}";
      "tags: []";
      "";
      "description:";
      "  purpose: TODO - Describe the intended use of this data";
      "  limitations: TODO - Document any constraints or limitations";
      "  usage: TODO - Describe recommended usage patterns";
      "";
      "# Schema Definition";
      "schema:";
      "  - name: {table_name}";
      "    id: {table_name}_tbl";
      "    logicalType: object";
      "    physicalType: table";
      "    businessName: TODO - Business friendly name";
      "    description: TODO - Add table description";
      "    dataGranularityDescription: TODO - e.g., One row per transaction";
      "";
      "    properties:";
      "      - name: id";
      "        id: id_col";
      "        logicalType: integer";
      "        physicalType: bigint";
      "        primaryKey: true";
      "        primaryKeyPosition: 1";
      "        required: true";
      "        unique: true";
      "        description: Unique identifier";
      "        classification: public";
      "";
      "      # TODO: Add more columns";
      "      # - name: column_name";
      "      #   logicalType: string|number|integer|date|timestamp|boolean";
      "      #   physicalType: varchar(255)";
      "      #   required: true|false";
      "      #   description: Column description";
      "";
      "# Data Quality Rules (optional)";
      "# quality:";
      "#   - type: library";
      "#     metric: rowCount";
      "#     mustBeGreaterThan: 0";
      "#     dimension: completeness";
      "#     severity: error";
      "";
      "# Server Configuration (optional)";
      "# servers:";
      "#   - server: my-database";
      "#     type: postgres";
      "#     host: localhost";
      "#     port: 5432";
      "#     database: mydb";
      "#     schema: public";
      "#     environment: dev";
      "";
      "# SLA Properties (optional)";
      "# slaProperties:";
      "#   - property: latency";
      "#     value: 24";
      "#     unit: d";
      "#   - property: retention";
      "#     value: 7";
      "#     unit: y";
      "";
      "# Team (optional)";
      "# team:";
      "#   name: data-team";
      "#   members:";
      "#     - username: owner@company.com";
      "#       role: Owner";
      "#       dateIn: " +:+ dq +:+ "{date}" +:+ dq;
      "";
      "# Roles (optional)";
      "# roles:";
      "#   - role: read_access";
      "#     access: read";
      "#     description: Read access for analytics";
      "";
      "# Support Channels (optional)";
      "# support:";
      "#   - channel: " +:+ dq +:+ "#data-help" +:+ dq;
      "#     tool: slack";
      "#     scope: interactive";
      "";
      "contractCreatedTs: " +:+ dq +:+ "{timestamp}" +:+ dq ].

(** *** [generate_contract] *)

(** [x or default] on an optional string: [None] and the empty string are
    both false. *)
Definition str_or (x : option string) (default : string) : string :=
  match x with
  | Some s => if String.eqb s "" then default else s
  | None => default
  end.

(** [template.format(...)] as a statement: the error of [str.format] is
    raised. *)
Definition format_stmt {R} (template : string) (kw : list (string * string))
  : M State R string :=
  match format template kw with
  | Some s => pure s
  | None => raise (OtherError "KeyError")
  end.

Definition generate_contract (env : Env) (output_path : string)
           (name domain : option string) (minimal : bool)
  : M State (option path) (option path) :=
  let output_path := Path output_path in
  (* Check if file exists *)
  found <- exists_ output_path ;;
  (if found : bool
   then print ("❌ Error: File already exists: " +:+ str output_path) ;;
        return_ None
   else pure tt) ;;
  (* Generate values *)
  let contract_id := uuid4 env in
  let timestamp := now_isoformat env in
  let date := now_date env in
  (* Derive names from filename if not provided *)
  let base_name :=
    replace " " "_" (replace "-" "_" (replace ".odcs" "" (stem output_path))) in
  let table_name := if String.eqb base_name "" then "my_table" else base_name in
  let name := str_or name (title (replace "_" " " base_name)) in
  let domain := str_or domain "TODO" in
  let data_product := base_name in
  let tenant := "TODO" in
  (* Select template *)
  content <-
    (if minimal
     then format_stmt MINIMAL_TEMPLATE
            [("id", contract_id); ("table_name", table_name)]
     else format_stmt FULL_TEMPLATE
            [("id", contract_id); ("timestamp", timestamp); ("date", date);
             ("name", name); ("domain", domain);
             ("data_product", data_product); ("tenant", tenant);
             ("table_name", table_name)]) ;;
  (* Write file *)
  try_except
    (mkdir (parent output_path) ;;
     write_text output_path content ;;
     print ("✅ Created contract: " +:+ str output_path) ;;
     return_ (Some output_path))
    (fun e =>
       if is_Exception e
       then Some (print ("❌ Error writing file: " +:+ exn_str e) ;;
                  return_ None)
       else None).

(** The parsed command line: [args.output], [args.name], [args.domain] and
    [args.minimal]. *)
Record Args : Type := MkArgs {
  output : string;
  arg_name : option string;
  arg_domain : option string;
  arg_minimal : bool
}.

Definition main (env : Env) (args : Args) : M State unit unit :=
  result <- call (generate_contract env (output args) (arg_name args)
                                    (arg_domain args) (arg_minimal args)) ;;
  sys_exit (if result is Some _ then 0 else 1)%Z.

(** *** Vocabulary of the properties *)

(** The table name that the generator derives from the output file name. *)
Definition derived_table_name (output_path : string) : string :=
  let base_name :=
    replace " " "_"
      (replace "-" "_" (replace ".odcs" "" (stem (Path output_path)))) in
  if String.eqb base_name "" then "my_table" else base_name.

(** What is printed when the output path is taken. *)
Definition already_exists (output_path : string) : string :=
  "❌ Error: File already exists: " +:+ str (Path output_path).

(** What is printed when the file was written. *)
Definition created (output_path : string) : string :=
  "✅ Created contract: " +:+ str (Path output_path).

(** The keyword arguments of the two [format] calls. *)
Definition minimal_fields (env : Env) (output_path : string)
  : list (string * string) :=
  [("id", uuid4 env); ("table_name", derived_table_name output_path)].

Definition full_fields (env : Env) (output_path : string)
           (name domain : option string) : list (string * string) :=
  let base_name :=
    replace " " "_"
      (replace "-" "_" (replace ".odcs" "" (stem (Path output_path)))) in
  [("id", uuid4 env); ("timestamp", now_isoformat env); ("date", now_date env);
   ("name", str_or name (title (replace "_" " " base_name)));
   ("domain", str_or domain "TODO");
   ("data_product", base_name); ("tenant", "TODO");
   ("table_name", derived_table_name output_path)].

(** The text that [generate_contract] writes, if [format] gives one. *)
Definition rendered (env : Env) (output_path : string)
           (name domain : option string) (minimal : bool) : option string :=
  if minimal then format MINIMAL_TEMPLATE (minimal_fields env output_path)
  else format FULL_TEMPLATE (full_fields env output_path name domain).

(** A template is well formed for the keys [keys]: its braces pair up and
    every field it names is one of [keys]. *)
Fixpoint fields_known (keys : list string) (field : option string)
         (s : string) : bool :=
  match s with
  | "" => match field with None => true | Some _ => false end
  | String c s' =>
      match field with
      | Some f =>
          if Ascii.eqb c "}"
          then existsb (fun k => String.eqb k f) keys && fields_known keys None s'
          else fields_known keys (Some (f +:+ String c "")) s'
      | None =>
          if Ascii.eqb c "{" then fields_known keys (Some "") s'
          else if Ascii.eqb c "}" then false
          else fields_known keys None s'
      end
  end.

(** [c in s] for a character. *)
Fixpoint has_char (c : ascii) (s : string) : bool :=
  match s with
  | "" => false
  | String d s' => Ascii.eqb c d || has_char c s'
  end.

(** What is printed when [mkdir] or the writing fails. *)
Definition write_failed (e : exn) : string :=
  "❌ Error writing file: " +:+ exn_str e.








End NewContract.

(** ** validate_contract.py *)
Module ValidateContract.
Import Py Pathlib.
Local Open Scope py_scope.

(** *** Documents, violations and the world outside the script *)

(** A parsed YAML or JSON document. *)
Inductive value : Type :=
| VNone
| VBool (b : bool)
| VInt (z : Z)
| VFloat (repr : string)
| VStr (s : string)
| VList (items : list value)
| VDict (items : list (value * value))
| VOther (repr : string).      (* dates and the like, by their repr *)

(** One step of [error.absolute_path]. *)
Inductive path_elem : Type :=
| Key (k : string)             (* a property name *)
| Index (i : Z)                (* an array index *)
| OtherKey (text : string).    (* a mapping key that is not a string, by its str() *)

(** [str(p)] *)
Definition elem_str (p : path_elem) : string :=
  match p with
  | Key k => k
  | Index i => pretty i
  | OtherKey t => t
  end.

(** A [jsonschema.ValidationError], as far as the script reads it. *)
Record ValidationError : Type := MkError {
  absolute_path : list path_elem;
  message : string
}.

(** The file system, the network and the three libraries.  An exception
    carries the text that [str(e)] gives. *)
Record World : Type := MkWorld {
  fs_exists : path -> bool;                 (* p.exists() *)
  fs_resolve : path -> path;                (* p.resolve() *)
  fs_read : path -> result string;          (* open(p, 'r') and reading it *)
  new_tempfile : result string;             (* NamedTemporaryFile(...).name *)
  http_retrieve : string -> result string;  (* what urlretrieve(url, _) stores *)
  http_read : string -> result string;      (* urlopen(url).read() *)
  yaml_safe_load : string -> result value;
  json_loads : string -> result value;
  (* list(Draft201909Validator(schema).iter_errors(instance)) *)
  iter_errors : value -> value -> result (list ValidationError)
}.

(** What the run has done so far: the calls of the script itself, not
    what a library does on its own behind one of them. *)
Inductive event : Type :=
| EvResolve (p : path)                      (* p.resolve() *)
| EvExists (p : path)                       (* p.exists() *)
| EvOpen (p : path)                         (* open(p, 'r') *)
| EvTempfile (name : string)                (* a temporary file was created *)
| EvUrlretrieve (url name : string)         (* urlretrieve(url, name) *)
| EvUrlopen (url : string).                 (* urlopen(url) *)

Record State : Type := MkState {
  stdout : list string;            (* the lines printed so far *)
  tmpfiles : gmap string string;   (* the temporary files written by this run *)
  trace : list event               (* the calls made so far, oldest first *)
}.

(** The state after more lines were printed, after more calls were made,
    and after a temporary file was written; the files are keyed by the
    string of their path. *)
Definition printed (lines : list string) (st : State) : State :=
  MkState (stdout st ++ lines) (tmpfiles st) (trace st).

Definition traced (evs : list event) (st : State) : State :=
  MkState (stdout st) (tmpfiles st) (trace st ++ evs).

Definition stored (name content : string) (st : State) : State :=
  MkState (stdout st) (<[str (Path name) := content]> (tmpfiles st)) (trace st).

Definition print {R} (line : string) : M State R unit :=
  modify (printed [line]).

Definition emit {R} (ev : event) : M State R unit :=
  modify (traced [ev]).

Definition store_tmp {R} (name content : string) : M State R unit :=
  modify (stored name content).

Definition sys_exit {R A} (code : Z) : M State R A := raise (SystemExit code).

(** [SCHEMA_URL] *)
Definition SCHEMA_URL : string :=
  "https://raw.githubusercontent.com/bitol-io/open-data-contract-standard/main/schema/odcs-json-schema-v3.1.0.json".

(** The resolved schema source is a [str] (a URL) or a [Path]. *)
Inductive schema_ref : Type :=
| RefStr (s : string)
| RefPath (p : path).

Definition ref_str (r : schema_ref) : string :=
  match r with RefStr s => s | RefPath p => str p end.

(** The file that [open(r, 'r')] opens. *)
Definition ref_path (r : schema_ref) : path :=
  match r with RefStr s => Path s | RefPath p => p end.

(** The result of [validate_contract]: the tuple [(is_valid, errors_list)]. *)
Abbreviation outcome := (bool * list string)%type (only parsing).

Section Script.
Variable w : World.

(** *** The calls of the script into the world *)
Definition exists_ {R} (p : path) : M State R bool :=
  emit (EvExists p) ;; pure (fs_exists w p).

Definition resolve {R} (p : path) : M State R path :=
  emit (EvResolve p) ;; pure (fs_resolve w p).

(** Reading file [p]: a temporary file of this run has the content the run
    stored in it. *)
Definition read_file {R} (p : path) : M State R string :=
  emit (EvOpen p) ;;
  st <- get ;;
  match tmpfiles st !! str p with
  | Some content => pure content
  | None => lift (fs_read w p)
  end.

(** [tempfile.NamedTemporaryFile(suffix=".json", delete=False)]: the file
    is created empty. *)
Definition NamedTemporaryFile {R} : M State R string :=
  name <- lift (new_tempfile w) ;;
  emit (EvTempfile name) ;;
  store_tmp name "" ;;
  pure name.

(** [urllib.request.urlretrieve(url, name)] *)
Definition urlretrieve {R} (url name : string) : M State R unit :=
  emit (EvUrlretrieve url name) ;;
  body <- lift (http_retrieve w url) ;;
  store_tmp name body.

(** [urllib.request.urlopen(url)] followed by [resp.read()] *)
Definition urlopen_read {R} (url : string) : M State R string :=
  emit (EvUrlopen url) ;;
  lift (http_read w url).

(** *** [find_schema_file] *)
Definition local_paths : list path :=
  [ Path "schema/odcs-json-schema-v3.1.0.json";
    Path "schema/odcs-json-schema-latest.json" ].

Definition find_schema_file : M State (option path) (option path) :=
  (* Check local schema/ directory *)
  for_ local_paths
       (fun path =>
          resolved <- resolve path ;;
          found <- exists_ resolved ;;
          if found : bool then return_ (Some resolved) else pure tt) ;;
  (* Download from GitHub *)
  try_except
    (print "Downloading schema from GitHub..." ;;
     tmp <- NamedTemporaryFile ;;
     urlretrieve SCHEMA_URL tmp ;;
     return_ (Some (Path tmp)))
    (fun e =>
       match e with
       | URLError _ =>
           Some (print ("Warning: Could not download schema: " +:+ exn_str e) ;;
                 return_ None)
       | _ => None
       end).

(** *** [validate_contract]

    The body of the function is cut at its own comments: "Find or validate
    schema path", "Load contract", "Load schema", "Validate" and "Format
    errors".  Each block either falls through with the variables it
    binds, or returns from [validate_contract], or raises. *)

(** [if schema_path:] on the optional argument: [None] and the empty
    string are both false. *)
Definition truthy (x : option string) : option string :=
  match x with
  | Some s => if String.eqb s "" then None else Some s
  | None => None
  end.

(** Find or validate schema path: binds [schema_path] and [schema_is_url]. *)
Definition find_or_validate_schema_path (schema_path : option string)
  : M State outcome (schema_ref * bool) :=
  match truthy schema_path with
  | Some s =>
      if startswith_any ["http://"; "https://"] s
      then pure (RefStr s, true)
      else
        let schema_path := Path s in
        found <- exists_ schema_path ;;
        if found : bool then pure (RefPath schema_path, false)
        else return_ (false, ["Schema file not found: " +:+ str schema_path])
  | None =>
      schema_path <- call find_schema_file ;;
      match schema_path with
      | Some p => pure (RefPath p, false)
      | None =>
          return_ (false,
                   ["Could not find ODCS JSON schema. Use --schema <path-or-url> or download from:"
                      +:+ nl +:+ "  " +:+ SCHEMA_URL])
      end
  end.

(** Load contract: binds [contract]. *)
Definition load_contract (contract_path : path) : M State outcome value :=
  try_except
    (text <- read_file contract_path ;;
     lift (yaml_safe_load w text))
    (fun e =>
       match e with
       | YAMLError _ => Some (return_ (false, ["Invalid YAML: " +:+ exn_str e]))
       | _ => None
       end).

(** Load schema: binds [schema]. *)
Definition load_schema (schema_path : schema_ref) (schema_is_url : bool)
  : M State outcome value :=
  try_except
    (if schema_is_url
     then body <- urlopen_read (ref_str schema_path) ;;
          lift (json_loads w body)
     else text <- read_file (ref_path schema_path) ;;
          lift (json_loads w text))
    (fun e =>
       match e with
       | JSONDecodeError _ =>
           Some (return_ (false, ["Invalid JSON schema: " +:+ exn_str e]))
       | URLError _ =>
           Some (return_ (false,
                          ["Could not download schema from "
                             +:+ ref_str schema_path +:+ ": " +:+ exn_str e]))
       | _ => None
       end).

(** Format errors: the path of one error, and its line. *)
Definition render_path (abs_path : list path_elem) : string :=
  match abs_path with
  | [] => "root"
  | _ => join " -> " (map elem_str abs_path)
  end.

Definition format_error (error : ValidationError) : string :=
  "  [" +:+ render_path (absolute_path error) +:+ "] " +:+ message error.

Definition validate_contract (contract_path : string)
           (schema_path : option string) : M State outcome outcome :=
  let contract_path := Path contract_path in
  (* Validate contract file exists *)
  found <- exists_ contract_path ;;
  (if found : bool then pure tt
   else return_ (false, ["Contract file not found: " +:+ str contract_path])) ;;
  (* Find or validate schema path *)
  '(schema_path, schema_is_url) <- find_or_validate_schema_path schema_path ;;
  (* Load contract *)
  contract <- load_contract contract_path ;;
  (* Load schema *)
  schema <- load_schema schema_path schema_is_url ;;
  (* Validate *)
  errors <- lift (iter_errors w schema contract) ;;
  match errors with
  | [] => return_ (true, [])
  | _ =>
      (* Format errors *)
      let error_messages := map format_error errors in
      return_ (false, error_messages)
  end.

(** *** [main] *)

(** The parsed command line: [args.contract] and [args.schema]. *)
Record Args : Type := MkArgs {
  contract : string;
  schema : option string
}.

Definition main (args : Args) : M State unit unit :=
  print ("Validating: " +:+ contract args) ;;
  '(is_valid, errors) <- call (validate_contract (contract args) (schema args)) ;;
  if is_valid : bool
  then print "✅ Contract is valid!" ;; sys_exit 0
  else print "❌ Validation failed:" ;;
       for_ errors print ;;
       sys_exit 1.

End Script.

(** The state in which a run starts. *)
Definition initial : State := MkState [] ∅ [].

(** *** Vocabulary of the properties *)

(** The contract file exists, the schema source is found, and both files
    are read and parsed: the run from [st] reaches the validation step in
    state [st'] with the document [doc] and the schema [sch]. *)
Definition loads_documents (w : World) (c : string) (s : option string)
           (st : State) (doc sch : value) (st' : State) : Prop :=
  exists st0 sp u st1 st2,
    exists_ (R := outcome) w (Path c) st = (Normal true, st0) /\
    find_or_validate_schema_path w s st0 = (Normal (sp, u), st1) /\
    load_contract w (Path c) st1 = (Normal doc, st2) /\
    load_schema w sp u st2 = (Normal sch, st').

(** Fetching the text of the schema, from the network or from the file. *)
Definition fetch_schema_text (w : World) (sp : schema_ref) (u : bool)
  : M State outcome string :=
  if u then urlopen_read w (ref_str sp) else read_file w (ref_path sp).


(** The two conventional places of the schema, in the order of
    [local_paths]. *)
Definition versioned_path : path := Path "schema/odcs-json-schema-v3.1.0.json".
Definition latest_path : path := Path "schema/odcs-json-schema-latest.json".

(** What the validation step returns for the errors [errs]. *)
Definition verdict (errs : list ValidationError) : outcome :=
  (Nat.eqb (List.length errs) 0, map format_error errs).




(** The run of [validate_contract] from [st] ends without a result of the
    form [(is_valid, errors)]. *)
Definition produces_no_outcome (w : World) (c : string) (s : option string)
           (st : State) : Prop :=
  forall out st', run (validate_contract w c s) st <> (Ok out, st').

(** One step of the path of a violation as the report is to show it: a
    property name as it is, an array index in decimal. *)
Definition segment_text (p : path_elem) : string :=
  match p with
  | Key name => name
  | Index i => pretty i
  | OtherKey text => text
  end.

(** The path of a violation as the report shows it: the steps from the
    root joined by an arrow, and the word "root" when there are none. *)
Fixpoint arrow_joined (first : path_elem) (rest : list path_elem) : string :=
  match rest with
  | [] => segment_text first
  | p :: rest' => segment_text first +:+ " -> " +:+ arrow_joined p rest'
  end.

Definition shown_path (abs_path : list path_elem) : string :=
  match abs_path with
  | [] => "root"
  | p :: rest => arrow_joined p rest
  end.

(** The calls of the script that need the network or leave a temporary
    file.  What a library does on its own behind [iter_errors], such as
    fetching a remote [$ref], is no call of the script and no event. *)
Definition is_network_event (ev : event) : bool :=
  match ev with
  | EvTempfile _ | EvUrlretrieve _ _ | EvUrlopen _ => true
  | _ => false
  end.

(** From [st] to [st'] the run printed nothing, wrote no temporary file
    and made calls allowed by [allowed] only. *)
Definition only_calls (allowed : event -> bool) (st st' : State) : Prop :=
  exists evs, st' = traced evs st /\ Forall (fun ev => allowed ev = true) evs.

(** The calls that stay on the machine. *)
Definition is_local_event (ev : event) : bool := negb (is_network_event ev).

(** The schema is taken from the disk: the explicit reference is no URL,
    or there is none and one of the conventional files is there. *)
Definition schema_is_local (w : World) (s : option string) : Prop :=
  match truthy s with
  | Some ref => startswith_any ["http://"; "https://"] ref = false
  | None =>
      fs_exists w (fs_resolve w versioned_path) = true \/
      fs_exists w (fs_resolve w latest_path) = true
  end.

(** A line of the report that stands for a violation. *)
Definition is_violation_line (line : string) : bool := startswith "  [" line.

(** The ways in which the run from [st] ends on an exception that no
    [except] clause of the script catches: the search for a schema fails
    on something else than a [URLError], the contract or the schema cannot
    be read, or the validator itself raises. *)
Inductive uncaught_error (w : World) (c : string) (s : option string)
          (st : State) : exn -> State -> Prop :=
| search_failed st0 e st1 :
    exists_ (R := outcome) w (Path c) st = (Normal true, st0) ->
    truthy s = None ->
    run (find_schema_file w) st0 = (Err e, st1) ->
    uncaught_error w c s st e st1
| contract_unreadable st0 sp u st1 cls msg st2 :
    exists_ (R := outcome) w (Path c) st = (Normal true, st0) ->
    find_or_validate_schema_path w s st0 = (Normal (sp, u), st1) ->
    read_file (R := outcome) w (Path c) st1 = (Raise (OSError cls msg), st2) ->
    uncaught_error w c s st (OSError cls msg) st2
| schema_unreadable st0 sp u st1 doc st2 cls msg st3 :
    exists_ (R := outcome) w (Path c) st = (Normal true, st0) ->
    find_or_validate_schema_path w s st0 = (Normal (sp, u), st1) ->
    load_contract w (Path c) st1 = (Normal doc, st2) ->
    fetch_schema_text w sp u st2 = (Raise (OSError cls msg), st3) ->
    uncaught_error w c s st (OSError cls msg) st3
| validator_failed doc sch st' e :
    loads_documents w c s st doc sch st' ->
    iter_errors w sch doc = Err e ->
    uncaught_error w c s st e st'.

End ValidateContract.

(** ** Concrete environments

    Small worlds on which the two scripts can be run: a disk and a clock
    for the generator; for the validator a handful of files, a network
    that is up or down, and parsers and a schema validator that know the
    few texts stored in those files. *)
Module Scenarios.
Import Py Pathlib.

Definition env0 : NewContract.Env :=
  NewContract.MkEnv "3f2b8c1e-7d4a-4e59-9b0a-5c6d7e8f9a10"
                    "2026-01-15T09:30:00+00:00" "2026-01-15".

Definition env1 : NewContract.Env :=
  NewContract.MkEnv "3f2b8c1e-7d4a-4e59-9b0a-5c6d7e8f9a10"
                    "2026-02-01T00:00:00+00:00" "2026-02-01".

Definition empty_disk : NewContract.State := NewContract.MkState ∅ [].

(** A disk on which [orders.odcs.yaml] is already there. *)
Definition taken_disk : NewContract.State :=
  NewContract.MkState {[ "orders.odcs.yaml" := NewContract.File "kept" ]} [].

Import ValidateContract.

Definition schema_text : string := "{type: object, required: [status]}".

Definition toy_schema : value :=
  VDict [(VStr "type", VStr "object"); (VStr "required", VList [VStr "status"])].

Definition toy_yaml (text : string) : result value :=
  if String.eqb text "" then Ok VNone
  else if String.eqb text "status: draft"
  then Ok (VDict [(VStr "status", VStr "draft")])
  else if String.eqb text "schema: [{name: 5}]"
  then Ok (VDict [(VStr "schema", VList [VDict [(VStr "name", VInt 5)]])])
  else Err (YAMLError "mapping values are not allowed here").

Definition toy_json (text : string) : result value :=
  if String.eqb text schema_text then Ok toy_schema
  else Err (JSONDecodeError "Expecting value: line 1 column 1 (char 0)").

Definition has_key (k : string) (items : list (value * value)) : bool :=
  existsb (fun kv => match fst kv with VStr s => String.eqb s k | _ => false end)
          items.

(** The toy validator: the document must be a mapping with a [status], and
    the [name] of its first table, if any, must be a string.  It reports
    all the violations it finds. *)
Definition toy_iter_errors (schema doc : value) : result (list ValidationError) :=
  match doc with
  | VDict items =>
      Ok ((if has_key "status" items then []
           else [MkError [] "'status' is a required property"])
          ++ match items with
             | [(VStr "schema", VList [VDict [(VStr "name", VInt 5)]])] =>
                 [MkError [Key "schema"; Index 0; Key "name"]
                          "5 is not of type 'string'"]
             | _ => []
             end)
  | VNone => Ok [MkError [] "None is not of type 'object'"]
  | _ => Ok [MkError [] "instance is not of type 'object'"]
  end.

Definition toy_world (files : list (string * string)) (online : bool) : World :=
  {| fs_exists p := bool_decide (str p ∈ files.*1);
     fs_resolve p :=
       if String.eqb (root p) "" then MkPath "/" ("work" :: parts p) else p;
     fs_read p :=
       match List.find (fun kv => String.eqb (fst kv) (str p)) files with
       | Some kv => Ok (snd kv)
       | None =>
           Err (OSError FileNotFoundError
                        ("[Errno 2] No such file or directory: '" +:+ str p +:+ "'"))
       end;
     new_tempfile := Ok "/tmp/tmpq3x9.json";
     http_retrieve url :=
       if online && String.eqb url SCHEMA_URL then Ok schema_text
       else Err (URLError "<urlopen error [Errno -3] Temporary failure in name resolution>");
     http_read url :=
       if online then Ok schema_text
       else Err (URLError "<urlopen error [Errno -3] Temporary failure in name resolution>");
     yaml_safe_load := toy_yaml;
     json_loads := toy_json;
     iter_errors := toy_iter_errors |}.

Definition files0 : list (string * string) :=
  [ ("contract.yaml", "status: draft");
    ("nested.yaml", "schema: [{name: 5}]");
    ("empty.yaml", "");
    ("bad.yaml", "a: b: c");
    ("my-schema.json", schema_text);
    ("broken.json", "oops") ].


(** No schema under [schema/], network up. *)
Definition online : World := toy_world files0 true.

(** Both conventional schema files are present. *)
Definition checkout : World :=
  toy_world (files0 ++ [ ("/work/schema/odcs-json-schema-v3.1.0.json", schema_text);
                         ("/work/schema/odcs-json-schema-latest.json", schema_text) ])
            false.

(** Only the [latest] alias is present. *)
Definition latest_only : World :=
  toy_world (files0 ++ [ ("/work/schema/odcs-json-schema-latest.json", schema_text) ])
            false.

(** The checkout, with a directory [contracts] that cannot be opened as a
    file. *)
Definition with_directory : World :=
  {| fs_exists p := String.eqb (str p) "contracts" || fs_exists checkout p;
     fs_resolve := fs_resolve checkout;
     fs_read p :=
       if String.eqb (str p) "contracts"
       then Err (OSError IsADirectoryError "[Errno 21] Is a directory: 'contracts'")
       else fs_read checkout p;
     new_tempfile := new_tempfile checkout;
     http_retrieve := http_retrieve checkout;
     http_read := http_read checkout;
     yaml_safe_load := yaml_safe_load checkout;
     json_loads := json_loads checkout;
     iter_errors := iter_errors checkout |}.

End Scenarios.

(** ** Properties of the generator *)
Module NewContractProofs.
Import Py Pathlib NewContract.

(** *** Paths and their ancestors *)

Lemma string_length_app (s1 s2 : string) :
  String.length (s1 +:+ s2) = String.length s1 + String.length s2.
Proof.
  induction s1 as [|c s1 IH]; [done|].
  change (String c s1 +:+ s2) with (String c (s1 +:+ s2)). simpl.
  by rewrite IH.
Qed.

Lemma join_cons_cons sep (x y : string) l :
  join sep (x :: y :: l) = x +:+ sep +:+ join sep (y :: l).
Proof. done. Qed.

(** A joined list is strictly longer than each of its proper non-empty
    prefixes. *)
Lemma join_prefix_shorter (q r : list string) :
  q <> [] -> r <> [] ->
  String.length (join "/" q) < String.length (join "/" (q ++ r)).
Proof.
  intros Hq Hr. induction q as [|x q IH]; [done|].
  destruct q as [|y q].
  - destruct r as [|z r]; [done|]. simpl app.
    rewrite join_cons_cons, !string_length_app. simpl. lia.
  - simpl app in *. rewrite !join_cons_cons, !string_length_app.
    assert (y :: q <> []) as Hne by done. specialize (IH Hne). lia.
Qed.

Lemma proper_prefixes_spec {A} (l q : list A) :
  In q (proper_prefixes l) -> exists r, l = q ++ r /\ r <> [].
Proof.
  revert q. induction l as [|x l IH]; intros q; simpl; [done|].
  intros [<-|Hin]; [by exists (x :: l)|].
  apply in_map_iff in Hin as (q' & <- & Hin).
  destruct (IH q' Hin) as (r & -> & Hr). by exists r.
Qed.

Lemma str_nonempty p :
  parts p <> [] -> str p = root p +:+ join "/" (parts p).
Proof. unfold str. destruct (parts p), (root p); done. Qed.

(** No proper ancestor of [p] is stored under the key of [p]. *)
Lemma ancestor_key_differs p a :
  In a (ancestors p) -> parts a = [] \/ str a <> str p.
Proof.
  unfold ancestors. intros Hin. apply in_map_iff in Hin as (q & <- & Hin).
  apply proper_prefixes_spec in Hin as (r & Hp & Hr).
  destruct q as [|x q]; [by left|right].
  assert (x :: q <> []) as Hq by done.
  pose proof (join_prefix_shorter (x :: q) r Hq Hr) as Hlt.
  rewrite (str_nonempty (MkPath (root p) (x :: q))) by done.
  rewrite (str_nonempty p) by (by rewrite Hp).
  simpl root. simpl parts. rewrite Hp. intros Heq.
  apply (f_equal String.length) in Heq.
  rewrite !string_length_app in Heq. lia.
Qed.

(** *** The file system *)

Lemma lookup_path_insert_other (m : gmap string node) p a nd :
  parts a = [] \/ str a <> str p ->
  lookup_path (<[str p := nd]> m) a = lookup_path m a.
Proof.
  unfold lookup_path. intros [->|Hne]; [done|].
  destruct (parts a); [done|]. by rewrite lookup_insert_ne.
Qed.

Lemma walk_insert (m : gmap string node) p nd ancs :
  (forall a, In a ancs -> parts a = [] \/ str a <> str p) ->
  walk (<[str p := nd]> m) ancs = walk m ancs.
Proof.
  induction ancs as [|a ancs IH]; intros H; [done|]. simpl.
  rewrite lookup_path_insert_other by (apply H; by left).
  rewrite IH; [done|]. intros b Hb. apply H. by right.
Qed.

Lemma root_exists (m : gmap string node) p :
  parts p = [] -> path_exists m p = true.
Proof.
  intros H. unfold path_exists, ancestors, lookup_path. by rewrite H.
Qed.

(** After [write_text] the file is there, with the content written. *)
Lemma write_text_stores (m m' : gmap string node) p content :
  parts p <> [] ->
  os_write_text m p content = Ok m' ->
  m' !! str p = Some (File content) /\ path_exists m' p = true.
Proof.
  intros Hp. unfold os_write_text.
  destruct (walk m (ancestors p)) eqn:Hw; [done|].
  assert (m' = <[str p := File content]> m ->
          m' !! str p = Some (File content) /\ path_exists m' p = true) as Hok.
  { intros ->. split; [apply lookup_insert_eq|].
    unfold path_exists.
    rewrite walk_insert by apply ancestor_key_differs. rewrite Hw.
    apply bool_decide_eq_true. unfold lookup_path.
    destruct (parts p); [done|]. rewrite lookup_insert_eq. eauto. }
  destruct (lookup_path m p) as [[|]|]; intros ?; simplify_eq; by apply Hok.
Qed.

(** *** [generate_contract], case by case *)

Lemma generate_existing env p n d mi st :
  path_exists (fs st) (Path p) = true ->
  run (generate_contract env p n d mi) st
  = (Ok None, MkState (fs st) (stdout st ++ [already_exists p])).
Proof.
  intros H. unfold generate_contract, run, bind, exists_, bind, get, pure.
  by rewrite H.
Qed.

Lemma main_existing env args st :
  path_exists (fs st) (Path (output args)) = true ->
  run (main env args) st
  = (Err (SystemExit 1),
     MkState (fs st) (stdout st ++ [already_exists (output args)])).
Proof.
  intros H. unfold main, run at 1, bind, call.
  by rewrite (generate_existing env _ _ _ _ st H).
Qed.

Lemma generate_success env p n d mi st q st1 :
  run (generate_contract env p n d mi) st = (Ok (Some q), st1) ->
  q = Path p /\
  exists content,
    fs st1 !! str (Path p) = Some (File content) /\
    path_exists (fs st1) (Path p) = true.
Proof.
  unfold generate_contract, run, bind, exists_, bind, get, pure.
  destruct (path_exists (fs st) (Path p)) eqn:Hex; [done|].
  assert (parts (Path p) <> []) as Hparts.
  { intros H. by rewrite (root_exists _ _ H) in Hex. }
  destruct mi; unfold format_stmt;
    (match goal with
     | |- context [format ?t ?kw] => destruct (format t kw) as [content|]
     end; [|by unfold raise]);
    unfold try_except, bind, mkdir, write_text, update_fs, bind, get, lift,
      modify, print, pure, raise, return_; simpl;
    (destruct (mkdir_parents (fs st) (parent (Path p))) as [m1|e1]; simpl;
     [destruct (os_write_text m1 (Path p) content) as [m2|e2] eqn:Hw; simpl;
      [intros ?; simplify_eq; split; [done|]; exists content; simpl;
       by apply (write_text_stores m1)
      |destruct (is_Exception e2); simpl; intros; simplify_eq]
     |destruct (is_Exception e1); simpl; intros; simplify_eq]).
Qed.

(** C8.  The generator does not overwrite.  When the output path exists,
    [generate_contract] prints the failure and returns [None], the file
    system is left as it was (no file written, no directory created), and
    [main] exits with code 1.  Hence, after an invocation that created the
    file, any further invocation on the same path fails and the file
    keeps the content of the first. *)
Theorem existing_output_is_not_overwritten env args st :
  (path_exists (fs st) (Path (output args)) = true ->
   run (generate_contract env (output args) (arg_name args) (arg_domain args)
                          (arg_minimal args)) st
   = (Ok None, MkState (fs st) (stdout st ++ [already_exists (output args)])) /\
   run (main env args) st
   = (Err (SystemExit 1),
      MkState (fs st) (stdout st ++ [already_exists (output args)])) /\
   exit_code (fst (run (main env args) st)) = 1%Z) /\
  (forall q st1,
     run (generate_contract env (output args) (arg_name args) (arg_domain args)
                            (arg_minimal args)) st
     = (Ok (Some q), st1) ->
     exists content,
       fs st1 !! str (Path (output args)) = Some (File content) /\
       forall env' name' domain' minimal',
         run (main env' (MkArgs (output args) name' domain' minimal')) st1
         = (Err (SystemExit 1),
            MkState (fs st1) (stdout st1 ++ [already_exists (output args)]))).
Proof.
  split.
  - intros H. split; [by apply generate_existing|].
    rewrite (main_existing env args st H). by split.
  - intros q st1 H. apply generate_success in H as (_ & content & Hc & Hex).
    exists content. split; [done|]. intros env' name' domain' minimal'.
    by apply (main_existing env' (MkArgs (output args) name' domain' minimal')).
Qed.

(** C9.  In minimal mode the result does not depend on the name, on the
    domain or on the clock: two invocations on the same path, from the
    same state and with the same generated identifier, do the same.  The
    file they write is the minimal template filled with the identifier and
    with the table name derived from the output file name. *)
Theorem minimal_output_ignores_name_and_domain
        env1 env2 p name1 domain1 name2 domain2 st :
  uuid4 env1 = uuid4 env2 ->
  generate_contract env1 p name1 domain1 true st
  = generate_contract env2 p name2 domain2 true st /\
  (forall q st',
     run (generate_contract env1 p name1 domain1 true) st = (Ok (Some q), st') ->
     exists content,
       format MINIMAL_TEMPLATE
              [("id", uuid4 env1); ("table_name", derived_table_name p)]
       = Some content /\
       fs st' !! str (Path p) = Some (File content)).
Proof.
  intros Hid. split.
  - unfold generate_contract. by rewrite Hid.
  - intros q st'.
    unfold generate_contract, run, bind, exists_, bind, get, pure.
    destruct (path_exists (fs st) (Path p)) eqn:Hex; [done|].
    fold (derived_table_name p). unfold format_stmt.
    destruct (format MINIMAL_TEMPLATE _) as [content|]; [|by unfold raise].
    unfold try_except, bind, mkdir, write_text, update_fs, bind, get, lift,
      modify, print, pure, raise, return_; simpl.
    destruct (mkdir_parents (fs st) (parent (Path p))) as [m1|e1]; simpl.
    + destruct (os_write_text m1 (Path p) content) as [m2|e2] eqn:Hw; simpl.
      * intros ?; simplify_eq. exists content. split; [done|]. simpl.
        apply (write_text_stores m1); [|done].
        intros H. by rewrite (root_exists _ _ H) in Hex.
      * destruct (is_Exception e2); simpl; intros; simplify_eq.
    + destruct (is_Exception e1); simpl; intros; simplify_eq.
Qed.

(** *** The properties on concrete runs *)
Import Scenarios.

Lemma existing_output_is_not_overwritten_witness :
  path_exists (fs taken_disk) (Path "orders.odcs.yaml") = true /\
  run (main env0 (MkArgs "orders.odcs.yaml" None None false)) taken_disk
  = (Err (SystemExit 1),
     MkState (fs taken_disk)
             (stdout taken_disk ++ [already_exists "orders.odcs.yaml"])).
Proof.
  assert (path_exists (fs taken_disk) (Path "orders.odcs.yaml") = true)
    as H by (vm_compute; reflexivity).
  split; [exact H|].
  exact (proj1 (proj2 (proj1 (existing_output_is_not_overwritten
                                env0 (MkArgs "orders.odcs.yaml" None None false)
                                taken_disk) H))).
Defined.

Lemma minimal_output_ignores_name_and_domain_witness :
  generate_contract env0 "contracts/orders.odcs.yaml"
                    (Some "Orders Data") (Some "sales") true empty_disk
  = generate_contract env1 "contracts/orders.odcs.yaml" None None true empty_disk.
Proof.
  exact (proj1 (minimal_output_ignores_name_and_domain
                  env0 env1 "contracts/orders.odcs.yaml"
                  (Some "Orders Data") (Some "sales") None None empty_disk
                  eq_refl)).
Defined.

End NewContractProofs.

(** ** Properties of the validator *)
Module ValidateContractProofs.
Import Py Pathlib ValidateContract.

Ltac unfold_py :=
  unfold call, lift in *;
  unfold run, bind, pure, return_, raise, get, modify, try_except in *.

Ltac unfold_io :=
  unfold exists_, resolve, read_file, NamedTemporaryFile, urlretrieve,
    urlopen_read, print, emit, store_tmp in *.

Lemma traced_traced evs1 evs2 st :
  traced evs2 (traced evs1 st) = traced (evs1 ++ evs2) st.
Proof. destruct st; unfold traced; simpl. by rewrite <- app_assoc. Qed.

Lemma traced_nil st : traced [] st = st.
Proof. destruct st; unfold traced; simpl. by rewrite app_nil_r. Qed.


Ltac ret_case := solve [simpl; intros ?; simplify_eq; eauto].

(** *** The blocks return nothing but a single message *)

Lemma find_or_validate_returns w s st out st' :
  find_or_validate_schema_path w s st = (Return out, st') ->
  exists m, out = (false, [m]).
Proof.
  unfold find_or_validate_schema_path.
  destruct (truthy s) as [ref|].
  - destruct (startswith_any _ ref); unfold_io; unfold_py; simpl.
    + discriminate.
    + destruct (fs_exists w (Path ref)); intros ?; simplify_eq; eauto.
  - unfold_py. destruct (find_schema_file w st) as [[o|o|e] st1];
      try destruct o; ret_case.
Qed.

Lemma load_contract_returns w p st out st' :
  load_contract w p st = (Return out, st') -> exists m, out = (false, [m]).
Proof.
  unfold load_contract. unfold_io. unfold_py. simpl.
  destruct (tmpfiles _ !! str p) as [text|].
  - destruct (yaml_safe_load w text) as [v|[]]; ret_case.
  - destruct (fs_read w p) as [text|[]]; try ret_case.
    destruct (yaml_safe_load w text) as [v|[]]; ret_case.
Qed.

Lemma load_schema_returns w sp u st out st' :
  load_schema w sp u st = (Return out, st') -> exists m, out = (false, [m]).
Proof.
  unfold load_schema. destruct u; unfold_io; unfold_py; simpl.
  - destruct (http_read w (ref_str sp)) as [text|[]]; try ret_case.
    destruct (json_loads w text) as [v|[]]; ret_case.
  - destruct (tmpfiles _ !! _) as [text|].
    + destruct (json_loads w text) as [v|[]]; ret_case.
    + destruct (fs_read w _) as [text|[]]; try ret_case.
      destruct (json_loads w text) as [v|[]]; ret_case.
Qed.

(** *** The validation step *)

Lemma verdict_eq errs :
  verdict errs
  = match errs with [] => (true, []) | _ => (false, map format_error errs) end.
Proof. by destruct errs. Qed.

Lemma validate_contract_loaded w c s st doc sch st' errs :
  loads_documents w c s st doc sch st' ->
  iter_errors w sch doc = Ok errs ->
  run (validate_contract w c s) st = (Ok (verdict errs), st').
Proof.
  intros (st0 & sp & u & st1 & st2 & H0 & H1 & H2 & H3) He.
  rewrite verdict_eq.
  unfold validate_contract, run, bind.
  rewrite H0. unfold pure at 1. rewrite H1, H2, H3.
  unfold lift. rewrite He. by destruct errs.
Qed.

Lemma validate_contract_returns w c s st out st' :
  run (validate_contract w c s) st = (Ok out, st') ->
  (exists m, out = (false, [m])) \/ (exists errs, out = verdict errs).
Proof.
  unfold validate_contract, run, bind.
  destruct (exists_ w (Path c) st) as [[b|o|e] st0] eqn:H0;
    try (by unfold_io; unfold_py).
  destruct b.
  - unfold pure at 1.
    destruct (find_or_validate_schema_path w s st0) as [[[sp u]|o|e] st1] eqn:H1.
    + destruct (load_contract w (Path c) st1) as [[doc|o|e] st2] eqn:H2.
      * destruct (load_schema w sp u st2) as [[sch|o|e] st3] eqn:H3.
        -- unfold lift. destruct (iter_errors w sch doc) as [errs|e] eqn:He.
           ++ intros Hr. right. exists errs. rewrite verdict_eq.
              destruct errs; unfold_py; by simplify_eq.
           ++ by unfold_py.
        -- intros ?; simplify_eq. left. eauto using load_schema_returns.
        -- done.
      * intros ?; simplify_eq. left. eauto using load_contract_returns.
      * done.
    + intros ?; simplify_eq. left. eauto using find_or_validate_returns.
    + done.
  - unfold return_. intros ?; simplify_eq. left. eauto.
Qed.

(** *** What each block does to the state *)

Lemma load_contract_state w p st r st' :
  load_contract w p st = (r, st') -> st' = traced [EvOpen p] st.
Proof.
  unfold load_contract. unfold_io. unfold_py. simpl.
  destruct (tmpfiles _ !! str p) as [text|].
  - destruct (yaml_safe_load w text) as [v|[]]; simpl; by intros [= _ <-].
  - destruct (fs_read w p) as [text|[]]; simpl; try by intros [= _ <-].
    destruct (yaml_safe_load w text) as [v|[]]; simpl; by intros [= _ <-].
Qed.

Lemma load_schema_state w sp u st r st' :
  load_schema w sp u st = (r, st') ->
  st' = traced [if u then EvUrlopen (ref_str sp) else EvOpen (ref_path sp)] st.
Proof.
  unfold load_schema. destruct u; unfold_io; unfold_py; simpl.
  - destruct (http_read w (ref_str sp)) as [text|[]]; simpl; try by intros [= _ <-].
    destruct (json_loads w text) as [v|[]]; simpl; by intros [= _ <-].
  - destruct (tmpfiles _ !! _) as [text|].
    + destruct (json_loads w text) as [v|[]]; simpl; by intros [= _ <-].
    + destruct (fs_read w _) as [text|[]]; simpl; try by intros [= _ <-].
      destruct (json_loads w text) as [v|[]]; simpl; by intros [= _ <-].
Qed.


(** With an explicit reference the block touches nothing but the
    reference itself. *)
Lemma explicit_schema_path w s ref st :
  truthy s = Some ref ->
  find_or_validate_schema_path w s st
  = if startswith_any ["http://"; "https://"] ref
    then (Normal (RefStr ref, true), st)
    else if fs_exists w (Path ref)
         then (Normal (RefPath (Path ref), false), traced [EvExists (Path ref)] st)
         else (Return (false, ["Schema file not found: " +:+ str (Path ref)]),
               traced [EvExists (Path ref)] st).
Proof.
  intros H. unfold find_or_validate_schema_path. rewrite H.
  destruct (startswith_any _ ref); [done|].
  unfold_io. unfold_py. simpl. by destruct (fs_exists w (Path ref)).
Qed.

(** *** [find_schema_file], case by case *)

Lemma find_schema_file_versioned w st :
  fs_exists w (fs_resolve w versioned_path) = true ->
  run (find_schema_file w) st
  = (Ok (Some (fs_resolve w versioned_path)),
     traced [EvResolve versioned_path; EvExists (fs_resolve w versioned_path)] st).
Proof.
  intros H. unfold find_schema_file, local_paths. simpl for_.
  fold versioned_path latest_path.
  unfold_io. unfold_py. simpl. rewrite H. simpl.
  by rewrite traced_traced.
Qed.

Lemma find_schema_file_latest w st :
  fs_exists w (fs_resolve w versioned_path) = false ->
  fs_exists w (fs_resolve w latest_path) = true ->
  run (find_schema_file w) st
  = (Ok (Some (fs_resolve w latest_path)),
     traced [EvResolve versioned_path; EvExists (fs_resolve w versioned_path);
             EvResolve latest_path; EvExists (fs_resolve w latest_path)] st).
Proof.
  intros H1 H2. unfold find_schema_file, local_paths. simpl for_.
  fold versioned_path latest_path.
  unfold_io. unfold_py. simpl. rewrite H1. simpl. rewrite H2. simpl.
  by rewrite !traced_traced.
Qed.

Lemma find_schema_file_download w st name :
  fs_exists w (fs_resolve w versioned_path) = false ->
  fs_exists w (fs_resolve w latest_path) = false ->
  new_tempfile w = Ok name ->
  exists r st',
    run (find_schema_file w) st = (r, st') /\
    trace st' = trace st ++
      [EvResolve versioned_path; EvExists (fs_resolve w versioned_path);
       EvResolve latest_path; EvExists (fs_resolve w latest_path);
       EvTempfile name; EvUrlretrieve SCHEMA_URL name] /\
    (forall m, http_retrieve w SCHEMA_URL = Err (URLError m) ->
       r = Ok None /\
       stdout st' = stdout st ++ ["Downloading schema from GitHub...";
                                  "Warning: Could not download schema: " +:+ m]).
Proof.
  intros H1 H2 Ht. unfold find_schema_file, local_paths. simpl for_.
  fold versioned_path latest_path.
  unfold_io. unfold_py. simpl. rewrite H1. simpl. rewrite H2. simpl.
  rewrite Ht. simpl.
  destruct (http_retrieve w SCHEMA_URL) as [body|[]]; simpl;
    do 2 eexists; (split; [reflexivity|]); simpl;
    rewrite <- ?app_assoc; simpl; (split; [reflexivity|]);
    intros m' ?; by simplify_eq.
Qed.

(** *** [main] *)

Lemma printed_printed l1 l2 st : printed l2 (printed l1 st) = printed (l1 ++ l2) st.
Proof. destruct st; unfold printed; simpl. by rewrite <- app_assoc. Qed.

Lemma for_print (lines : list string) st :
  for_ (R := unit) lines print st = (Normal tt, printed lines st).
Proof.
  revert st. induction lines as [|l lines IH]; intros st; simpl.
  - unfold pure, printed. destruct st; simpl. by rewrite app_nil_r.
  - unfold bind, print at 1, modify. rewrite IH. by rewrite printed_printed.
Qed.

Lemma main_of_validate w c s st v errs st' :
  run (validate_contract w c s) (printed ["Validating: " +:+ c] st)
  = (Ok (v, errs), st') ->
  run (main w (MkArgs c s)) st
  = if v then (Err (SystemExit 0), printed ["✅ Contract is valid!"] st')
    else (Err (SystemExit 1), printed ("❌ Validation failed:" :: errs) st').
Proof.
  intros H. unfold main. simpl contract. simpl schema.
  unfold run at 1. unfold bind at 1. unfold print at 1, modify.
  unfold bind at 1. unfold call. rewrite H.
  destruct v.
  - by unfold bind, print, modify, sys_exit, raise.
  - unfold bind at 1. unfold print at 1, modify.
    unfold bind. rewrite for_print. unfold sys_exit, raise.
    by rewrite printed_printed.
Qed.

Lemma elem_str_segment p : elem_str p = segment_text p.
Proof. by destruct p. Qed.

Lemma render_path_shown abs_path : render_path abs_path = shown_path abs_path.
Proof.
  destruct abs_path as [|p rest]; [done|]. simpl.
  revert p. induction rest as [|q rest IH]; intros p; [by destruct p|].
  unfold join in *. simpl in *. by rewrite IH, elem_str_segment.
Qed.

Lemma Forall2_map_eq {A B} (f : A -> B) l k :
  Forall2 (fun x y => y = f x) l k -> k = map f l.
Proof. induction 1; simpl; congruence. Qed.

(** C2.  Whenever [validate_contract] returns, its flag is true exactly
    when its list of messages is empty. *)
Theorem outcome_invariant w c s st is_valid errors st' :
  run (validate_contract w c s) st = (Ok (is_valid, errors), st') ->
  is_valid = true <-> errors = [].
Proof.
  intros H. apply validate_contract_returns in H as [[m H]|[errs H]].
  - by simplify_eq.
  - rewrite verdict_eq in H. destruct errs; by simplify_eq.
Qed.

(** C3.  When the document and the schema both load, the result holds one
    line per error that the Draft 2019-09 validator reports for the whole
    document, in the same order, and the flag says whether there is none. *)
Theorem validation_collects_every_violation w c s st doc sch st' errs :
  loads_documents w c s st doc sch st' ->
  iter_errors w sch doc = Ok errs ->
  exists is_valid lines,
    run (validate_contract w c s) st = (Ok (is_valid, lines), st') /\
    lines = map format_error errs /\
    List.length lines = List.length errs /\
    is_valid = Nat.eqb (List.length errs) 0.
Proof.
  intros Hl He. eexists _, _. split.
  - by apply (validate_contract_loaded w c s st doc sch st' errs).
  - by rewrite length_map.
Qed.

(** C7, as the code has it.  Every line returned for a violation is two
    spaces of indentation, an opening bracket, the path of the violation,
    a closing bracket, a space and the message.  The path is made of the
    property names, as they are, and of the array indices, in decimal,
    from the root of the document to the offending node, joined by
    " -> "; it is the word "root" when the violation is at the root. *)
Theorem violation_lines_are_bracketed w c s st doc sch st' errs :
  loads_documents w c s st doc sch st' ->
  iter_errors w sch doc = Ok errs ->
  errs <> [] ->
  exists lines,
    run (validate_contract w c s) st = (Ok (false, lines), st') /\
    Forall2 (fun error line =>
               line = "  " +:+ "[" +:+ shown_path (absolute_path error) +:+ "] "
                           +:+ message error)
            errs lines.
Proof.
  intros Hl He Hne. exists (map format_error errs). split.
  - rewrite (validate_contract_loaded w c s st doc sch st' errs Hl He).
    rewrite verdict_eq. by destruct errs.
  - clear. induction errs as [|e errs IH]; constructor; [|done].
    unfold format_error. by rewrite render_path_shown.
Qed.

(** C10.  A contract file that exists and parses to YAML null is no load
    failure: the null document goes through schema validation like any
    other, and the result is built from the errors reported for it. *)
Theorem null_document_is_validated w c s st st0 sp u st1 text st2 sch st3 errs :
  exists_ (R := outcome) w (Path c) st = (Normal true, st0) ->
  find_or_validate_schema_path w s st0 = (Normal (sp, u), st1) ->
  read_file (R := outcome) w (Path c) st1 = (Normal text, st2) ->
  yaml_safe_load w text = Ok VNone ->
  load_schema w sp u st2 = (Normal sch, st3) ->
  iter_errors w sch VNone = Ok errs ->
  load_contract w (Path c) st1 = (Normal VNone, st2) /\
  run (validate_contract w c s) st
  = (Ok (Nat.eqb (List.length errs) 0, map format_error errs), st3).
Proof.
  intros H0 H1 Hr Hy H3 He.
  assert (load_contract w (Path c) st1 = (Normal VNone, st2)) as H2.
  { unfold load_contract, try_except, bind. rewrite Hr. unfold lift.
    by rewrite Hy. }
  split; [done|].
  apply (validate_contract_loaded w c s st VNone sch st3 errs); [|done].
  by exists st0, sp, u, st1, st2.
Qed.

(** C5.  Without an explicit reference the locator probes the versioned
    file name first and the "latest" alias second, returns the first of
    the two whose resolved path exists, as that resolved (absolute) path,
    and calls the download of the canonical URL only when neither exists. *)
Theorem local_schema_is_probed_first w st :
  (forall p, root (fs_resolve w p) <> "") ->
  let r1 := fs_resolve w versioned_path in
  let r2 := fs_resolve w latest_path in
  local_paths = [versioned_path; latest_path] /\
  (fs_exists w r1 = true ->
   root r1 <> "" /\
   run (find_schema_file w) st
   = (Ok (Some r1), traced [EvResolve versioned_path; EvExists r1] st)) /\
  (fs_exists w r1 = false -> fs_exists w r2 = true ->
   root r2 <> "" /\
   run (find_schema_file w) st
   = (Ok (Some r2),
      traced [EvResolve versioned_path; EvExists r1;
              EvResolve latest_path; EvExists r2] st)) /\
  (forall r st' url name,
     run (find_schema_file w) st = (r, st') ->
     In (EvUrlretrieve url name) (trace st') ->
     ~ In (EvUrlretrieve url name) (trace st) ->
     fs_exists w r1 = false /\ fs_exists w r2 = false) /\
  (fs_exists w r1 = false -> fs_exists w r2 = false ->
   forall name, new_tempfile w = Ok name ->
     exists r st',
       run (find_schema_file w) st = (r, st') /\
       trace st' = trace st ++
         [EvResolve versioned_path; EvExists r1;
          EvResolve latest_path; EvExists r2;
          EvTempfile name; EvUrlretrieve SCHEMA_URL name]).
Proof.
  intros Habs r1 r2. split; [done|]. split; [|split; [|split]].
  - intros H. split; [apply Habs|]. by apply find_schema_file_versioned.
  - intros H1 H2. split; [apply Habs|]. by apply find_schema_file_latest.
  - intros r st' url name Hrun Hin Hnot.
    destruct (fs_exists w r1) eqn:H1.
    { rewrite (find_schema_file_versioned w st H1) in Hrun. simplify_eq.
      simpl in Hin. apply in_app_or in Hin as [Hin|Hin]; [done|].
      simpl in Hin. intuition discriminate. }
    destruct (fs_exists w r2) eqn:H2; [|done].
    rewrite (find_schema_file_latest w st H1 H2) in Hrun. simplify_eq.
    simpl in Hin. apply in_app_or in Hin as [Hin|Hin]; [done|].
    simpl in Hin. intuition discriminate.
  - intros H1 H2 name Ht.
    destruct (find_schema_file_download w st name H1 H2 Ht)
      as (r & st' & Hrun & Htr & _).
    by exists r, st'.
Qed.


(** *** An explicit schema reference *)



Lemma exists_eq w {R} p st :
  exists_ (R := R) w p st = (Normal (fs_exists w p), traced [EvExists p] st).
Proof. reflexivity. Qed.




(** *** Failures before the validation step *)



(** *** The properties on concrete runs *)
Import Scenarios.



Lemma outcome_invariant_witness : false = true <-> ["  [root] None is not of type 'object'"] = [].
Proof.
  eapply (outcome_invariant latest_only "empty.yaml" None initial).
  reflexivity.
Defined.


Lemma nested_loads :
  loads_documents checkout "nested.yaml" None initial
    (VDict [(VStr "schema", VList [VDict [(VStr "name", VInt 5)]])]) toy_schema
    (traced [EvExists (Path "nested.yaml");
             EvResolve versioned_path;
             EvExists (Path "/work/schema/odcs-json-schema-v3.1.0.json");
             EvOpen (Path "nested.yaml");
             EvOpen (Path "/work/schema/odcs-json-schema-v3.1.0.json")] initial).
Proof.
  do 5 eexists.
  split; [vm_compute; reflexivity|].
  split; [vm_compute; reflexivity|].
  split; vm_compute; reflexivity.
Defined.

Lemma validation_collects_every_violation_witness :
  exists is_valid lines st',
    run (validate_contract checkout "nested.yaml" None) initial
    = (Ok (is_valid, lines), st') /\
    lines = [ "  [root] 'status' is a required property";
              "  [schema -> 0 -> name] 5 is not of type 'string'" ] /\
    is_valid = false.
Proof.
  destruct (validation_collects_every_violation
              checkout "nested.yaml" None initial _ _ _
              [ MkError [] "'status' is a required property";
                MkError [Key "schema"; Index 0; Key "name"]
                        "5 is not of type 'string'" ]
              nested_loads eq_refl)
    as (is_valid & lines & Hrun & Hlines & _ & Hvalid).
  exists is_valid, lines. eexists. split; [exact Hrun|]. by split.
Defined.

(** C7, as the claim states it, fails by the indentation: the line of a
    violation does not start with the bracket. *)
Lemma violation_line_is_indented :
  fst (run (validate_contract latest_only "empty.yaml" None) initial)
  = Ok (false, ["  [root] None is not of type 'object'"]) /\
  forall path message,
    "  [root] None is not of type 'object'" <> "[" +:+ path +:+ "] " +:+ message.
Proof. split; [vm_compute; reflexivity|]. intros path message. discriminate. Qed.

Lemma violation_lines_are_bracketed_witness :
  exists st',
    run (validate_contract checkout "nested.yaml" None) initial
    = (Ok (false, [ "  [root] 'status' is a required property";
                    "  [schema -> 0 -> name] 5 is not of type 'string'" ]),
       st').
Proof.
  destruct (violation_lines_are_bracketed
              checkout "nested.yaml" None initial _ _ _
              [ MkError [] "'status' is a required property";
                MkError [Key "schema"; Index 0; Key "name"]
                        "5 is not of type 'string'" ]
              nested_loads eq_refl)
    as (lines & Hrun & Hlines); [done|].
  apply Forall2_map_eq in Hlines. eexists. rewrite Hrun, Hlines.
  vm_compute. reflexivity.
Defined.

Lemma null_document_is_validated_witness :
  run (validate_contract latest_only "empty.yaml" None) initial
  = (Ok (false, ["  [root] None is not of type 'object'"]),
     traced [EvExists (Path "empty.yaml");
             EvResolve versioned_path;
             EvExists (Path "/work/schema/odcs-json-schema-v3.1.0.json");
             EvResolve latest_path;
             EvExists (Path "/work/schema/odcs-json-schema-latest.json");
             EvOpen (Path "empty.yaml");
             EvOpen (Path "/work/schema/odcs-json-schema-latest.json")] initial).
Proof.
  eapply (fun st0 sp u st1 st2 sch H0 H1 Hr Hy H3 He =>
            proj2 (null_document_is_validated
                     latest_only "empty.yaml" None initial st0 sp u st1 ""
                     st2 sch _ [MkError [] "None is not of type 'object'"]
                     H0 H1 Hr Hy H3 He));
    vm_compute; reflexivity.
Defined.

Lemma toy_resolve_absolute files net p :
  root (fs_resolve (toy_world files net) p) <> "".
Proof. simpl. by destruct (String.eqb_spec (root p) ""). Defined.

Lemma local_schema_is_probed_first_witness :
  root (fs_resolve latest_only latest_path) <> "" /\
  run (find_schema_file latest_only) initial
  = (Ok (Some (fs_resolve latest_only latest_path)),
     traced [EvResolve versioned_path;
             EvExists (fs_resolve latest_only versioned_path);
             EvResolve latest_path;
             EvExists (fs_resolve latest_only latest_path)] initial).
Proof.
  apply (local_schema_is_probed_first latest_only initial
           (toy_resolve_absolute _ _)); vm_compute; reflexivity.
Defined.




End ValidateContractProofs.


(** ** Further properties of the generator *)
Module NewContractMore.
Import Py Pathlib NewContract NewContractProofs.

(** *** [format] on the two templates *)

Lemma find_known (kw : list (string * string)) f :
  existsb (fun k => String.eqb k f) (map fst kw) = true ->
  is_Some (List.find (fun kv => String.eqb (fst kv) f) kw).
Proof.
  induction kw as [|[k v] kw IH]; simpl; [done|].
  destruct (String.eqb k f); simpl; eauto.
Qed.

Lemma format_go_known kw field s :
  fields_known (map fst kw) field s = true -> is_Some (format_go kw field s).
Proof.
  revert field. induction s as [|c s IH]; intros field; simpl.
  - destruct field; [done|eauto].
  - destruct field as [f|].
    + destruct (Ascii.eqb c "}").
      * intros [Hk Hs]%andb_true_iff.
        destruct (find_known kw f Hk) as [kv ->].
        destruct (IH None Hs) as [r ->]. simpl. eauto.
      * apply IH.
    + destruct (Ascii.eqb c "{"); [apply IH|].
      destruct (Ascii.eqb c "}"); [done|].
      intros Hs. destruct (IH None Hs) as [r ->]. simpl. eauto.
Qed.

(** Both [format] calls of [generate_contract] give a text, whatever the
    values are. *)
Lemma rendered_is_Some env p n d mi : is_Some (rendered env p n d mi).
Proof.
  unfold rendered, format. destruct mi; apply format_go_known; vm_compute;
    reflexivity.
Qed.

(** *** [generate_contract] on a free path *)

Lemma generate_fresh env p n d mi st content :
  path_exists (fs st) (Path p) = false ->
  rendered env p n d mi = Some content ->
  run (generate_contract env p n d mi) st
  = match mkdir_parents (fs st) (parent (Path p)) with
    | Ok m1 =>
        match os_write_text m1 (Path p) content with
        | Ok m2 => (Ok (Some (Path p)), MkState m2 (stdout st ++ [created p]))
        | Err e =>
            if is_Exception e
            then (Ok None, MkState m1 (stdout st ++ [write_failed e]))
            else (Err e, MkState m1 (stdout st))
        end
    | Err e =>
        if is_Exception e
        then (Ok None, MkState (fs st) (stdout st ++ [write_failed e]))
        else (Err e, st)
    end.
Proof.
  intros Hex Hr.
  unfold generate_contract, run, bind, exists_, bind, get, pure.
  rewrite Hex. unfold rendered, minimal_fields, full_fields in Hr.
  fold (derived_table_name p). unfold format_stmt.
  destruct mi; rewrite Hr;
    unfold try_except, bind, mkdir, write_text, update_fs, bind, get, lift,
      modify, print, pure, raise, return_; simpl;
    (destruct (mkdir_parents (fs st) (parent (Path p))) as [m1|e1]; simpl;
     [destruct (os_write_text m1 (Path p) content) as [m2|e2]; simpl;
      [done|by destruct (is_Exception e2)]
     |destruct (is_Exception e1); [done|by destruct st]]).
Qed.





Lemma run_main env args st r st1 :
  run (generate_contract env (output args) (arg_name args) (arg_domain args)
                         (arg_minimal args)) st = (Ok r, st1) ->
  run (main env args) st
  = (Err (SystemExit (if r is Some _ then 0 else 1)), st1).
Proof. intros H. unfold main, run at 1, bind, call. by rewrite H. Qed.


(** *** Creating the parent directories *)

Lemma proper_prefixes_snoc {A} (l : list A) x :
  proper_prefixes (l ++ [x]) = proper_prefixes l ++ [l].
Proof.
  induction l as [|y l IH]; [done|]. simpl. rewrite IH.
  by rewrite map_app.
Qed.

Lemma ancestors_parent p :
  parts p <> [] -> ancestors p = ancestors (parent p) ++ [parent p].
Proof.
  intros Hp. unfold ancestors, parent.
  destruct (parts p) as [|x l] eqn:Hl; [done|]. cbn [root parts].
  assert (x :: l <> []) as Hne by done.
  destruct (exists_last Hne) as (l' & y & Hl').
  by rewrite Hl', removelast_last, proper_prefixes_snoc, map_app.
Qed.


Lemma walk_app m l1 l2 :
  walk m (l1 ++ l2)
  = match walk m l1 with Some e => Some e | None => walk m l2 end.
Proof.
  induction l1 as [|a l1 IH]; [done|]. simpl.
  by destruct (lookup_path m a) as [[|]|].
Qed.














Lemma mkdir_parents_go_blocked d m p cls msg :
  os_mkdir m p = Err (OSError cls msg) ->
  cls <> FileNotFoundError ->
  is_dir m p = false ->
  mkdir_parents_go d m p = Err (OSError cls msg).
Proof.
  intros H Hc Hd. destruct d; simpl; rewrite H, Hd; by destruct cls.
Qed.

(** X3.  When a directory above the output path is in fact a file, nothing
    is created: [generate_contract] prints the error of [mkdir] as an
    error of writing, returns [None] and leaves the file system as it
    was; [main] exits with code 1. *)
Theorem file_above_blocks_generation env args st :
  walk (fs st) (ancestors (Path (output args))) = Some NotADirectoryError ->
  exists e,
    mkdir_parents (fs st) (parent (Path (output args))) = Err e /\
    run (generate_contract env (output args) (arg_name args) (arg_domain args)
                           (arg_minimal args)) st
    = (Ok None, MkState (fs st) (stdout st ++ [write_failed e])) /\
    run (main env args) st
    = (Err (SystemExit 1), MkState (fs st) (stdout st ++ [write_failed e])).
Proof.
  destruct args as [p n d mi]. simpl. intros Hw.
  destruct (rendered_is_Some env p n d mi) as [content Hr].
  assert (parts (Path p) <> []) as Hp.
  { intros H. unfold ancestors in Hw. by rewrite H in Hw. }
  assert (path_exists (fs st) (Path p) = false) as Hex.
  { unfold path_exists. by rewrite Hw. }
  assert (exists cls msg,
            os_mkdir (fs st) (parent (Path p)) = Err (OSError cls msg) /\
            cls <> FileNotFoundError /\
            is_dir (fs st) (parent (Path p)) = false) as (cls & msg & Ho & Hc & Hd).
  { rewrite (ancestors_parent _ Hp), walk_app in Hw.
    unfold os_mkdir, is_dir.
    destruct (walk (fs st) (ancestors (parent (Path p)))) as [cls|].
    - simplify_eq. by eexists _, _.
    - simpl in Hw.
      destruct (lookup_path (fs st) (parent (Path p))) as [[c|]|]; [|done..].
      by eexists _, _. }
  pose proof (mkdir_parents_go_blocked
                (List.length (parts (parent (Path p)))) _ _ _ _ Ho Hc Hd) as Hm.
  pose proof (generate_fresh env p n d mi st content Hex Hr) as Hrun.
  unfold mkdir_parents in Hrun at 1. rewrite Hm in Hrun. simpl in Hrun.
  eexists. split; [exact Hm|]. split; [done|].
  by apply (run_main env (MkArgs p n d mi) st _ _ Hrun).
Qed.

(** *** Nothing that was on the disk is lost *)








(** *** The table name *)

Lemma has_char_app c s t : has_char c (s +:+ t) = has_char c s || has_char c t.
Proof.
  induction s as [|d s IH]; [done|]. simpl. by rewrite IH, orb_assoc.
Qed.

Lemma replace_go_char c new s :
  replace_go (String c "") new 0 s
  = match s with
    | "" => ""
    | String d s' =>
        if Ascii.eqb c d then new +:+ replace_go (String c "") new 0 s'
        else String d (replace_go (String c "") new 0 s')
    end.
Proof.
  destruct s as [|d s']; [done|]. simpl.
  destruct (Ascii.eqb_spec c d) as [->|Hne].
  - destruct (ascii_dec d d); [|done]. by destruct s'.
  - by destruct (ascii_dec c d).
Qed.

Lemma replace_removes_char c new s :
  has_char c new = false -> has_char c (replace (String c "") new s) = false.
Proof.
  intros Hnew. unfold replace. induction s as [|d s IH]; [done|].
  rewrite replace_go_char. cbv beta iota. destruct (Ascii.eqb c d) eqn:Hcd.
  - by rewrite has_char_app, Hnew, IH.
  - simpl. by rewrite Hcd, IH.
Qed.

Lemma replace_adds_no_char c d new s :
  has_char d new = false -> has_char d s = false ->
  has_char d (replace (String c "") new s) = false.
Proof.
  intros Hnew. unfold replace. induction s as [|x s IH]; [done|].
  intros H. simpl in H. apply orb_false_elim in H as [Hx Hs].
  rewrite replace_go_char. cbv beta iota. destruct (Ascii.eqb c x).
  - by rewrite has_char_app, Hnew, IH.
  - simpl. by rewrite Hx, IH.
Qed.

(** X5.  The table name written into the contract is never empty and
    holds neither a hyphen nor a space, whatever the output file is
    called. *)
Theorem table_name_is_clean output_path :
  derived_table_name output_path <> "" /\
  has_char "-" (derived_table_name output_path) = false /\
  has_char " " (derived_table_name output_path) = false.
Proof.
  unfold derived_table_name.
  set (s := replace ".odcs" "" (stem (Path output_path))).
  assert (has_char "-" (replace " " "_" (replace "-" "_" s)) = false) as Hh.
  { apply replace_adds_no_char; [done|]. by apply replace_removes_char. }
  assert (has_char " " (replace " " "_" (replace "-" "_" s)) = false) as Hs.
  { by apply replace_removes_char. }
  destruct (String.eqb_spec (replace " " "_" (replace "-" "_" s)) "") as [He|Hne];
    [done|]. done.
Qed.

(** *** The properties on concrete disks *)
Import Scenarios.



Lemma file_above_blocks_generation_witness :
  exists e,
    run (main env0 (MkArgs "orders.odcs.yaml/v2.odcs.yaml" None None false))
        taken_disk
    = (Err (SystemExit 1),
       MkState (fs taken_disk) (stdout taken_disk ++ [write_failed e])).
Proof.
  assert (walk (fs taken_disk) (ancestors (Path "orders.odcs.yaml/v2.odcs.yaml"))
          = Some NotADirectoryError) as H by (vm_compute; reflexivity).
  destruct (file_above_blocks_generation
              env0 (MkArgs "orders.odcs.yaml/v2.odcs.yaml" None None false)
              taken_disk H) as (e & _ & _ & Hmain).
  by exists e.
Defined.


End NewContractMore.

(** ** Further properties of the validator *)
Module ValidateContractMore.
Import Py Pathlib ValidateContract ValidateContractProofs.

(** *** What [main] makes of the verdict *)

(** X6.  When the contract and the schema load and the validator returns
    its errors, [main] prints the verdict and exits: with code 0 behind
    the line that the contract is valid when there is no error, and else
    with code 1 behind the heading and one line for each error, in the
    order of the validator. *)
Theorem main_reports_the_verdict w c s st doc sch st' errs :
  loads_documents w c s (printed ["Validating: " +:+ c] st) doc sch st' ->
  iter_errors w sch doc = Ok errs ->
  run (main w (MkArgs c s)) st
  = match errs with
    | [] => (Err (SystemExit 0), printed ["✅ Contract is valid!"] st')
    | _ => (Err (SystemExit 1),
            printed ("❌ Validation failed:" :: map format_error errs) st')
    end.
Proof.
  intros Hl He.
  pose proof (validate_contract_loaded w c s _ doc sch st' errs Hl He) as Hrun.
  rewrite verdict_eq in Hrun.
  destruct errs as [|e errs].
  - by rewrite (main_of_validate w c s st true [] st' Hrun).
  - by rewrite (main_of_validate w c s st false _ st' Hrun).
Qed.

(** *** Load failures and violations can be told apart *)

Ltac plain_case :=
  solve [simpl; intros ?; simplify_eq; eexists; split; reflexivity].

Lemma find_or_validate_returns_plain w s st out st' :
  find_or_validate_schema_path w s st = (Return out, st') ->
  exists m, out = (false, [m]) /\ is_violation_line m = false.
Proof.
  unfold find_or_validate_schema_path.
  destruct (truthy s) as [ref|].
  - destruct (startswith_any _ ref); unfold_io; unfold_py; simpl.
    + discriminate.
    + destruct (fs_exists w (Path ref)); plain_case.
  - unfold_py. destruct (find_schema_file w st) as [[o|o|e] st1];
      try destruct o; plain_case.
Qed.

Lemma load_contract_returns_plain w p st out st' :
  load_contract w p st = (Return out, st') ->
  exists m, out = (false, [m]) /\ is_violation_line m = false.
Proof.
  unfold load_contract. unfold_io. unfold_py. simpl.
  destruct (tmpfiles _ !! str p) as [text|].
  - destruct (yaml_safe_load w text) as [v|[]]; plain_case.
  - destruct (fs_read w p) as [text|[]]; try plain_case.
    destruct (yaml_safe_load w text) as [v|[]]; plain_case.
Qed.

Lemma load_schema_returns_plain w sp u st out st' :
  load_schema w sp u st = (Return out, st') ->
  exists m, out = (false, [m]) /\ is_violation_line m = false.
Proof.
  unfold load_schema. destruct u; unfold_io; unfold_py; simpl.
  - destruct (http_read w (ref_str sp)) as [text|[]]; try plain_case.
    destruct (json_loads w text) as [v|[]]; plain_case.
  - destruct (tmpfiles _ !! _) as [text|].
    + destruct (json_loads w text) as [v|[]]; plain_case.
    + destruct (fs_read w _) as [text|[]]; try plain_case.
      destruct (json_loads w text) as [v|[]]; plain_case.
Qed.

Lemma format_error_is_violation_line e : is_violation_line (format_error e) = true.
Proof.
  unfold is_violation_line, format_error, startswith. simpl.
  by destruct (_ +:+ _).
Qed.

Lemma format_errors_are_violation_lines errs :
  Forall (fun line => is_violation_line line = true) (map format_error errs).
Proof.
  induction errs as [|e errs IH]; constructor; [|done].
  apply format_error_is_violation_line.
Qed.

(** X7.  What [validate_contract] returns is of one of three kinds, and
    the lines tell which: no line, with the flag true; one line that does
    not start like a violation, for a load failure; or one line or more
    that all start with two spaces and a bracket, for the violations. *)
Theorem report_lines_tell_their_kind w c s st is_valid lines st' :
  run (validate_contract w c s) st = (Ok (is_valid, lines), st') ->
  (is_valid = true /\ lines = []) \/
  (is_valid = false /\
   exists m, lines = [m] /\ is_violation_line m = false) \/
  (is_valid = false /\ lines <> [] /\
   Forall (fun line => is_violation_line line = true) lines).
Proof.
  unfold validate_contract, run, bind.
  destruct (exists_ w (Path c) st) as [[b|o|e] st0] eqn:H0;
    try (by unfold_io; unfold_py).
  destruct b.
  - unfold pure at 1.
    destruct (find_or_validate_schema_path w s st0) as [[[sp u]|o|e] st1] eqn:H1.
    + destruct (load_contract w (Path c) st1) as [[doc|o|e] st2] eqn:H2.
      * destruct (load_schema w sp u st2) as [[sch|o|e] st3] eqn:H3.
        -- unfold lift. destruct (iter_errors w sch doc) as [errs|e] eqn:He.
           ++ destruct errs as [|e errs]; unfold_py; intros ?; simplify_eq.
              ** by left.
              ** right. right. split; [done|]. split; [done|].
                 apply (format_errors_are_violation_lines (e :: errs)).
           ++ by unfold_py.
        -- intros ?; simplify_eq.
           destruct (load_schema_returns_plain _ _ _ _ _ _ H3) as (m & Hm & Hp).
           simplify_eq. right. left. eauto.
        -- done.
      * intros ?; simplify_eq.
        destruct (load_contract_returns_plain _ _ _ _ _ H2) as (m & Hm & Hp).
        simplify_eq. right. left. eauto.
      * done.
    + intros ?; simplify_eq.
      destruct (find_or_validate_returns_plain _ _ _ _ _ H1) as (m & Hm & Hp).
      simplify_eq. right. left. eauto.
    + done.
  - unfold_py. intros ?; simplify_eq. right. left. split; [done|]. by eexists.
Qed.

(** *** A schema on the disk keeps the script off the network *)

Lemma only_calls_refl allowed st : only_calls allowed st st.
Proof. exists []. by rewrite traced_nil. Qed.

Lemma only_calls_step allowed evs st st' :
  Forall (fun ev => allowed ev = true) evs ->
  only_calls allowed (traced evs st) st' -> only_calls allowed st st'.
Proof.
  intros H1 (evs2 & -> & H2). exists (evs ++ evs2).
  split; [by rewrite traced_traced|by apply Forall_app].
Qed.

Lemma local_schema_path w s st :
  schema_is_local w s ->
  exists r evs,
    find_or_validate_schema_path w s st = (r, traced evs st) /\
    Forall (fun ev => is_local_event ev = true) evs /\
    match r with Normal (sp, u) => u = false | _ => True end.
Proof.
  unfold schema_is_local. destruct (truthy s) as [ref|] eqn:Hs.
  - intros Hu. rewrite (explicit_schema_path w s ref st Hs), Hu.
    destruct (fs_exists w (Path ref)); eexists _, [_];
      (split; [reflexivity|]); by repeat constructor.
  - intros Hl. unfold find_or_validate_schema_path. rewrite Hs.
    unfold bind, call.
    destruct (fs_exists w (fs_resolve w versioned_path)) eqn:H1.
    + rewrite (find_schema_file_versioned w st H1).
      eexists _, [_; _]. split; [reflexivity|]. by repeat constructor.
    + destruct Hl as [?|H2]; [done|].
      rewrite (find_schema_file_latest w st H1 H2).
      eexists _, [_; _; _; _]. split; [reflexivity|]. by repeat constructor.
Qed.

(** X8.  When the schema is taken from the disk, the script makes none
    of its network calls, however [validate_contract] ends: neither
    [urlretrieve] nor [urlopen] is called, no temporary file is created
    and nothing is printed.  The calls are those of the script; what the
    validator library fetches on its own while it resolves a remote
    reference of the schema is not among them. *)
Theorem local_schema_skips_the_download w c s st :
  schema_is_local w s ->
  only_calls is_local_event st (run (validate_contract w c s) st).2.
Proof.
  intros Hl.
  assert (forall r st', validate_contract w c s st = (r, st') ->
                        only_calls is_local_event st st') as H.
  { intros r st'. unfold validate_contract, bind. rewrite exists_eq.
    intros Hrun. apply (only_calls_step _ [EvExists (Path c)]);
      [by repeat constructor|].
    destruct (fs_exists w (Path c)).
    2:{ unfold return_ in Hrun. simplify_eq. apply only_calls_refl. }
    unfold pure at 1 in Hrun.
    destruct (local_schema_path w s (traced [EvExists (Path c)] st) Hl)
      as (r1 & evs & H1 & Hevs & Hu).
    rewrite H1 in Hrun. apply (only_calls_step _ evs); [done|].
    destruct r1 as [[sp u]|o|e];
      [|simplify_eq; apply only_calls_refl..].
    subst u.
    destruct (load_contract w (Path c) (traced evs (traced [EvExists (Path c)] st)))
      as [r2 st2] eqn:H2.
    apply load_contract_state in H2 as Hst2. subst st2.
    apply (only_calls_step _ [EvOpen (Path c)]); [by repeat constructor|].
    destruct r2 as [doc|o|e]; [|simplify_eq; apply only_calls_refl..].
    match type of Hrun with
    | context [load_schema w sp false ?st0] =>
        destruct (load_schema w sp false st0) as [r3 st3] eqn:H3
    end.
    apply load_schema_state in H3 as Hst3. subst st3.
    apply (only_calls_step _ [EvOpen (ref_path sp)]); [by repeat constructor|].
    destruct r3 as [sch|o|e]; [|simplify_eq; apply only_calls_refl..].
    unfold lift in Hrun.
    destruct (iter_errors w sch doc) as [[|e errs]|e]; unfold_py;
      simplify_eq; apply only_calls_refl. }
  unfold run. destruct (validate_contract w c s st) as [[a|o|e] st'] eqn:Hrun;
    simpl; by eapply H.
Qed.

(** *** The downloaded schema *)

(** X9.  When no schema is named and none is on the disk, the schema that
    the contract is validated against is the text downloaded from
    [SCHEMA_URL], whatever the disk holds; the temporary file that the
    download was stored in is still there when [validate_contract]
    returns. *)
Theorem downloaded_schema_is_used_and_kept
        w c s st name body text doc sch errs :
  truthy s = None ->
  fs_exists w (Path c) = true ->
  fs_exists w (fs_resolve w versioned_path) = false ->
  fs_exists w (fs_resolve w latest_path) = false ->
  new_tempfile w = Ok name ->
  http_retrieve w SCHEMA_URL = Ok body ->
  tmpfiles st !! str (Path c) = None ->
  str (Path name) <> str (Path c) ->
  fs_read w (Path c) = Ok text ->
  yaml_safe_load w text = Ok doc ->
  json_loads w body = Ok sch ->
  iter_errors w sch doc = Ok errs ->
  exists st',
    run (validate_contract w c s) st = (Ok (verdict errs), st') /\
    stdout st' = stdout st ++ ["Downloading schema from GitHub..."] /\
    tmpfiles st' !! str (Path name) = Some body /\
    trace st' = trace st ++
      [EvExists (Path c);
       EvResolve versioned_path; EvExists (fs_resolve w versioned_path);
       EvResolve latest_path; EvExists (fs_resolve w latest_path);
       EvTempfile name; EvUrlretrieve SCHEMA_URL name;
       EvOpen (Path c); EvOpen (Path name)].
Proof.
  intros Hs Hc H1 H2 Ht Hd Hfree Hne Hr Hy Hj He.
  set (st0 := traced [EvExists (Path c)] st).
  set (st1 := stored name body
                (traced [EvUrlretrieve SCHEMA_URL name]
                   (stored name ""
                      (traced [EvTempfile name]
                         (printed ["Downloading schema from GitHub..."]
                            (traced [EvResolve versioned_path;
                                     EvExists (fs_resolve w versioned_path);
                                     EvResolve latest_path;
                                     EvExists (fs_resolve w latest_path)] st0)))))).
  assert (find_or_validate_schema_path w s st0
          = (Normal (RefPath (Path name), false), st1)) as Hfind.
  { unfold find_or_validate_schema_path. rewrite Hs.
    unfold bind, call, find_schema_file, local_paths. simpl for_.
    fold versioned_path latest_path.
    unfold_io. unfold_py. simpl. rewrite H1. simpl. rewrite H2. simpl.
    rewrite Ht. simpl. rewrite Hd. simpl. unfold st1.
    by rewrite !traced_traced. }
  assert (load_contract w (Path c) st1
          = (Normal doc, traced [EvOpen (Path c)] st1)) as Hlc.
  { unfold load_contract. unfold_io. unfold_py. simpl.
    rewrite !lookup_insert_ne by done. rewrite Hfree, Hr. simpl.
    by rewrite Hy. }
  assert (load_schema w (RefPath (Path name)) false
                      (traced [EvOpen (Path c)] st1)
          = (Normal sch,
             traced [EvOpen (Path name)] (traced [EvOpen (Path c)] st1)))
    as Hls.
  { unfold load_schema. unfold_io. unfold_py. simpl.
    rewrite lookup_insert_eq. by rewrite Hj. }
  exists (traced [EvOpen (Path name)] (traced [EvOpen (Path c)] st1)).
  split; [|split; [|split]].
  - apply (validate_contract_loaded w c s st doc sch _ errs); [|done].
    exists st0, (RefPath (Path name)), false, st1,
      (traced [EvOpen (Path c)] st1).
    by rewrite exists_eq, Hc.
  - reflexivity.
  - simpl. by rewrite lookup_insert_eq.
  - simpl. by rewrite <- !app_assoc.
Qed.

(** *** Errors that no clause catches *)

Lemma main_raises w c s st e st' :
  run (validate_contract w c s) (printed ["Validating: " +:+ c] st)
  = (Err e, st') ->
  run (main w (MkArgs c s)) st = (Err e, st').
Proof.
  intros H. unfold main. simpl contract. simpl schema.
  unfold run at 1. unfold bind at 1. unfold print at 1, modify.
  unfold bind at 1. unfold call. by rewrite H.
Qed.

Lemma uncaught_error_run w c s st e st' :
  uncaught_error w c s st e st' ->
  run (validate_contract w c s) st = (Err e, st').
Proof.
  intros H. unfold validate_contract, run, bind.
  destruct H as [st0 e st1 H0 Hs Hf
                |st0 sp u st1 cls msg st2 H0 H1 Hr
                |st0 sp u st1 doc st2 cls msg st3 H0 H1 H2 Ht
                |doc sch st' e (st0 & sp & u & st1 & st2 & H0 & H1 & H2 & H3) He];
    rewrite H0; unfold pure at 1.
  - unfold find_or_validate_schema_path. rewrite Hs. unfold bind, call.
    by rewrite Hf.
  - rewrite H1. unfold load_contract, try_except, bind. by rewrite Hr.
  - rewrite H1, H2. unfold load_schema, try_except, bind.
    unfold fetch_schema_text in Ht. by destruct u; rewrite Ht.
  - rewrite H1, H2, H3. unfold lift. by rewrite He.
Qed.

(** X10.  An error that no [except] clause of the script names is not
    turned into a report.  When the search for a schema fails on another
    error than a [URLError], when the contract or the schema exists but
    cannot be opened, or when the validator itself raises, the exception
    leaves [validate_contract] and then [main]: no verdict is printed and
    [sys.exit] is not reached. *)
Theorem uncaught_errors_end_the_run w c s :
  (forall st e st',
     uncaught_error w c s st e st' ->
     run (validate_contract w c s) st = (Err e, st') /\
     produces_no_outcome w c s st) /\
  (forall st e st',
     uncaught_error w c s (printed ["Validating: " +:+ c] st) e st' ->
     run (main w (MkArgs c s)) st = (Err e, st') /\
     (is_Exception e = true ->
      exit_code (fst (run (main w (MkArgs c s)) st)) = 1%Z)).
Proof.
  split.
  - intros st e st' H. apply uncaught_error_run in H. split; [done|].
    intros out st''. by rewrite H.
  - intros st e st' H. apply uncaught_error_run in H.
    rewrite (main_raises w c s st e st' H). split; [done|].
    by destruct e.
Qed.

(** *** The properties on concrete runs *)
Import Scenarios.

Lemma main_reports_the_verdict_witness :
  run (main checkout (MkArgs "nested.yaml" None)) initial
  = (Err (SystemExit 1),
     printed ("❌ Validation failed:"
                :: map format_error
                     [ MkError [] "'status' is a required property";
                       MkError [Key "schema"; Index 0; Key "name"]
                               "5 is not of type 'string'" ])
             (traced [EvExists (Path "nested.yaml");
                      EvResolve versioned_path;
                      EvExists (Path "/work/schema/odcs-json-schema-v3.1.0.json");
                      EvOpen (Path "nested.yaml");
                      EvOpen (Path "/work/schema/odcs-json-schema-v3.1.0.json")]
                     (printed ["Validating: " +:+ "nested.yaml"] initial))).
Proof.
  apply (main_reports_the_verdict
           checkout "nested.yaml" None initial
           (VDict [(VStr "schema", VList [VDict [(VStr "name", VInt 5)]])])
           toy_schema _
           [ MkError [] "'status' is a required property";
             MkError [Key "schema"; Index 0; Key "name"]
                     "5 is not of type 'string'" ]).
  - do 5 eexists.
    split; [vm_compute; reflexivity|].
    split; [vm_compute; reflexivity|].
    split; vm_compute; reflexivity.
  - reflexivity.
Defined.

Lemma report_lines_tell_their_kind_witness :
  (false = true /\ ["Invalid YAML: mapping values are not allowed here"] = []) \/
  (false = false /\
   exists m, ["Invalid YAML: mapping values are not allowed here"] = [m] /\
             is_violation_line m = false) \/
  (false = false /\
   ["Invalid YAML: mapping values are not allowed here"] <> [] /\
   Forall (fun line => is_violation_line line = true)
          ["Invalid YAML: mapping values are not allowed here"]).
Proof.
  eapply (report_lines_tell_their_kind
            checkout "bad.yaml" (Some "my-schema.json") initial).
  vm_compute. reflexivity.
Defined.

Lemma local_schema_skips_the_download_witness :
  only_calls is_local_event initial
             (run (validate_contract checkout "contract.yaml" None) initial).2.
Proof.
  apply (local_schema_skips_the_download checkout "contract.yaml" None initial).
  left. vm_compute. reflexivity.
Defined.

Lemma downloaded_schema_is_used_and_kept_witness :
  exists st',
    run (validate_contract online "contract.yaml" None) initial
    = (Ok (verdict []), st') /\
    stdout st' = stdout initial ++ ["Downloading schema from GitHub..."] /\
    tmpfiles st' !! str (Path "/tmp/tmpq3x9.json") = Some schema_text /\
    trace st' = trace initial ++
      [EvExists (Path "contract.yaml");
       EvResolve versioned_path; EvExists (fs_resolve online versioned_path);
       EvResolve latest_path; EvExists (fs_resolve online latest_path);
       EvTempfile "/tmp/tmpq3x9.json";
       EvUrlretrieve SCHEMA_URL "/tmp/tmpq3x9.json";
       EvOpen (Path "contract.yaml"); EvOpen (Path "/tmp/tmpq3x9.json")].
Proof.
  assert (fs_exists online (Path "contract.yaml") = true)
    as Hc by (vm_compute; reflexivity).
  assert (fs_exists online (fs_resolve online versioned_path) = false)
    as H1 by (vm_compute; reflexivity).
  assert (fs_exists online (fs_resolve online latest_path) = false)
    as H2 by (vm_compute; reflexivity).
  assert (http_retrieve online SCHEMA_URL = Ok schema_text)
    as Hd by (vm_compute; reflexivity).
  assert (str (Path "/tmp/tmpq3x9.json") <> str (Path "contract.yaml"))
    as Hne by (vm_compute; discriminate).
  assert (fs_read online (Path "contract.yaml") = Ok "status: draft")
    as Hr by (vm_compute; reflexivity).
  exact (downloaded_schema_is_used_and_kept
           online "contract.yaml" None initial "/tmp/tmpq3x9.json" schema_text
           "status: draft" (VDict [(VStr "status", VStr "draft")]) toy_schema []
           eq_refl Hc H1 H2 eq_refl Hd eq_refl Hne Hr eq_refl eq_refl eq_refl).
Defined.

Lemma uncaught_errors_end_the_run_witness :
  run (validate_contract with_directory "contracts" (Some "my-schema.json"))
      initial
  = (Err (OSError IsADirectoryError "[Errno 21] Is a directory: 'contracts'"),
     traced [EvExists (Path "contracts"); EvExists (Path "my-schema.json");
             EvOpen (Path "contracts")] initial).
Proof.
  refine (proj1 (proj1 (uncaught_errors_end_the_run
                          with_directory "contracts" (Some "my-schema.json"))
                       initial _ _ _)).
  eapply contract_unreadable; vm_compute; reflexivity.
Defined.

End ValidateContractMore.
